(** * pgzstd: the PostgreSQL zstd extension (src/zstd.c)

    A shallow embedding of the five functions of [src/zstd.c]
    ([_PG_init], [_PG_fini], [compress], [decompress], [length]) and the
    properties its specification states about them.

    The extension sits between two collaborators that are not part of the
    repository: the PostgreSQL server (argument marshalling, [palloc],
    [elog], the varlena layout) and libzstd (the codec).  The codec's
    functions are an interface ([Codec]); its documented contract is a
    separate class ([CodecContract]).  The few host declarations the code
    relies on are written out with the values PostgreSQL's headers give
    them for an LP64 build. *)

From Stdlib Require Import ZArith List Lia Strings.Byte Strings.Ascii.
From stdpp Require Import base gmap strings list.

Local Open Scope Z_scope.

(** Length of a list as a C size. *)
Abbreviation len l := (Z.of_nat (Datatypes.length l)).

(** ** Machine integers *)

(** [size_t] is 64 bits wide: arithmetic on it wraps modulo [2^64]. *)
Definition SIZE_BITS : Z := 64.
Definition size_t (z : Z) : Z := z mod 2 ^ SIZE_BITS.

(** The cast [(int32) x]: keep the low 32 bits, read as two's complement. *)
Definition int32 (z : Z) : Z := (z + 2 ^ 31) mod 2 ^ 32 - 2 ^ 31.

(** zstd.c, lines 10-14. *)
Definition PG_INT32_MAX : Z := 0x7fffffff.
Definition DEFAULT_COMPRESSION_LEVEL : Z := 3.

(** ** The host: varlena values, the allocator, the error channel *)

(** Declarations of the PostgreSQL headers zstd.c includes; they are not
    part of the repository.  [VARHDRSZ] is [sizeof(int32)] (c.h);
    [MaxAllocSize] is the largest request [palloc] and [repalloc] accept
    (utils/memutils.h). *)
Definition VARHDRSZ : Z := 4.
Definition MaxAllocSize : Z := 0x3fffffff.

(** A [bytea] is a varlena with a 4-byte header: a length word (30 bits of
    length, header included) followed by the data bytes.  [chunk_size] is
    the number of bytes of the memory chunk that holds it. *)
Record varlena : Type := mk_varlena {
  chunk_size : Z;
  vl_len_ : Z;
  vl_dat : list byte
}.
Abbreviation bytea := varlena.

Definition VARSIZE (p : bytea) : Z := vl_len_ p.
Definition VARDATA (p : bytea) : list byte := vl_dat p.

(** A value as the host hands it to a function: the length word counts the
    header and exactly the data bytes present. *)
Definition wf_bytea (p : bytea) : Prop :=
  VARSIZE p = len (VARDATA p) + VARHDRSZ /\ VARSIZE p <= MaxAllocSize.

(** The bytes a varlena denotes: the [VARSIZE - VARHDRSZ] bytes at [VARDATA]. *)
Definition bytes_of (p : bytea) : list byte :=
  firstn (Z.to_nat (VARSIZE p - VARHDRSZ)) (VARDATA p).

(** A value built from its bytes, in a chunk of exact size. *)
Definition bytea_of (l : list byte) : bytea :=
  {| chunk_size := len l + VARHDRSZ; vl_len_ := len l + VARHDRSZ; vl_dat := l |}.

(** What the functions observe: host allocations and codec calls, in order. *)
Inductive event : Type :=
| Ev_palloc (size : Z)
| Ev_repalloc (size : Z)
| Ev_compressBound (srcSize : Z)
| Ev_compress_usingDict (dstCapacity srcSize dictSize level : Z)
| Ev_getFrameContentSize (srcSize : Z)
| Ev_decompress_usingDict (dstCapacity srcSize dictSize : Z).

(** [elog] levels used by the extension. *)
Inductive elevel : Type := ERROR | FATAL.

(** How a call ends: a value ([PG_RETURN_xxx]), SQL NULL ([PG_RETURN_NULL]),
    a report through [elog] that leaves the function, or undefined
    behaviour of the C program (a write past a chunk, a handle used after
    it was freed). *)
Inductive outcome (A : Type) : Type :=
| Ret (a : A)
| Null
| Raise (lvl : elevel) (msg : string)
| Fault.
Arguments Ret {A} a.
Arguments Null {A}.
Arguments Raise {A} lvl msg.
Arguments Fault {A}.

(** A computation: its outcome and the events it produced. *)
Definition M (A : Type) : Type := (outcome A * list event)%type.

#[global] Instance M_ret : MRet M := fun A a => (Ret a, []).
#[global] Instance M_bind : MBind M := fun A B f m =>
  match m with
  | (Ret a, t) => let '(r, t') := f a in (r, t ++ t')
  | (Null, t) => (Null, t)
  | (Raise lvl msg, t) => (Raise lvl msg, t)
  | (Fault, t) => (Fault, t)
  end.
Definition emit (e : event) : M unit := (Ret tt, [e]).
Definition elog {A} (lvl : elevel) (msg : string) : M A := (Raise lvl msg, []).
Definition fault {A} : M A := (Fault, []).

Definition PG_RETURN_NULL {A} : M A := (Null, []).
Definition PG_RETURN_BYTEA_P (p : bytea) : M bytea := mret p.
Definition PG_RETURN_INT32 (x : Z) : M Z := mret x.

(** [SET_VARSIZE(p, len)] writes the header at the start of the chunk, with
    the low 30 bits of [len] as the length; a chunk too small for a header
    is written past. *)
Definition SET_VARSIZE (p : bytea) (n : Z) : M bytea :=
  if chunk_size p <? VARHDRSZ then fault
  else mret {| chunk_size := chunk_size p; vl_len_ := n mod 2 ^ 30;
               vl_dat := vl_dat p |}.

(** [palloc]: a request above [MaxAllocSize] is reported with [elog(ERROR)];
    any other request returns a chunk of that size with unspecified
    contents (running out of memory is not modelled). *)
Definition palloc (size : Z) : M bytea :=
  if size >? MaxAllocSize then elog ERROR "invalid memory alloc request size"
  else emit (Ev_palloc size) ;;
       mret {| chunk_size := size; vl_len_ := 0; vl_dat := [] |}.

(** [repalloc]: same limit; the chunk keeps what fits in its new size. *)
Definition repalloc (p : bytea) (size : Z) : M bytea :=
  if size >? MaxAllocSize then elog ERROR "invalid memory alloc request size"
  else emit (Ev_repalloc size) ;;
       mret {| chunk_size := size; vl_len_ := vl_len_ p;
              vl_dat := firstn (Z.to_nat (size - VARHDRSZ)) (vl_dat p) |}.

(** ** The codec interface (zstd.h) *)

(** Buffers are passed to the codec as the bytes in [ptr, ptr + size); a
    null dictionary pointer is [None].  A call that writes to a destination
    returns its [size_t] result and the bytes it stored there. *)
Class Codec : Type := {
  ZSTD_compressBound : Z -> Z;
  ZSTD_compress_usingDict :
    Z -> list byte -> option (list byte) -> Z -> Z * list byte;
  ZSTD_decompress_usingDict :
    Z -> list byte -> option (list byte) -> Z * list byte;
  ZSTD_getFrameContentSize : list byte -> Z;
  ZSTD_isError : Z -> bool;
  ZSTD_getErrorName : Z -> string;
  ZSTD_minCLevel : Z;
  ZSTD_maxCLevel : Z;
  ZSTD_MAX_INPUT_SIZE : Z
}.

(** The two sentinels of [ZSTD_getFrameContentSize], as zstd.h defines
    them: [(0ULL - 1)] and [(0ULL - 2)]. *)
Definition ZSTD_CONTENTSIZE_UNKNOWN : Z := 2 ^ 64 - 1.
Definition ZSTD_CONTENTSIZE_ERROR : Z := 2 ^ 64 - 2.

(** ** Process-wide codec handles *)

Abbreviation loc := positive.
Abbreviation ptr := (option loc).
Abbreviation NULL := (@None loc).

(** The two static pointers of zstd.c and the set of handles the codec has
    created and not yet freed. *)
Record pg_state : Type := mk_state {
  cctx : ptr;
  dctx : ptr;
  live : gset loc
}.

(** Statics are zero-initialised when the library is loaded. *)
Definition loaded : pg_state := {| cctx := NULL; dctx := NULL; live := ∅ |}.

(** A pointer the codec may be given as a context. *)
Definition valid_ctx (st : pg_state) (p : ptr) : bool :=
  match p with
  | Some l => bool_decide (l ∈ live st)
  | None => false
  end.

(** [ZSTD_createCCtx] / [ZSTD_createDCtx]: a fresh handle, or NULL when the
    codec cannot allocate one ([ok = false]). *)
Definition ZSTD_create (ok : bool) (h : gset loc) : ptr * gset loc :=
  if ok then let l := fresh h in (Some l, {[ l ]} ∪ h) else (NULL, h).

(** [ZSTD_freeCCtx] / [ZSTD_freeDCtx]: NULL is accepted and ignored; a
    handle that is not live is a double free. *)
Definition ZSTD_free (p : ptr) (h : gset loc) : outcome (gset loc) :=
  match p with
  | None => Ret h
  | Some l => if bool_decide (l ∈ h) then Ret (h ∖ {[ l ]}) else Fault
  end.

(** ** zstd.c *)

Module zstd.

(** Lines 25-34.  [ok_c] and [ok_d] say whether the codec can allocate the
    two contexts.  [elog(FATAL)] ends the process; the statics keep what
    was assigned before it. *)
Definition _PG_init (ok_c ok_d : bool) (st : pg_state)
  : outcome unit * pg_state :=
  let '(p, h) := ZSTD_create ok_c (live st) in
  let st := {| cctx := p; dctx := dctx st; live := h |} in
  if decide (cctx st = NULL) then (Raise FATAL "ZSTD_createCCtx failed", st)
  else
    let '(q, h) := ZSTD_create ok_d (live st) in
    let st := {| cctx := cctx st; dctx := q; live := h |} in
    if decide (dctx st = NULL) then (Raise FATAL "ZSTD_createDCtx failed", st)
    else (Ret tt, st).

(** Lines 36-43.  Each pointer is tested and, when not null, handed to the
    codec's free function; neither static is assigned. *)
Definition _PG_fini (st : pg_state) : outcome unit * pg_state :=
  match (if decide (cctx st = NULL) then Ret (live st)
         else ZSTD_free (cctx st) (live st)) with
  | Ret h =>
    let st := {| cctx := cctx st; dctx := dctx st; live := h |} in
    match (if decide (dctx st = NULL) then Ret (live st)
           else ZSTD_free (dctx st) (live st)) with
    | Ret h => (Ret tt, {| cctx := cctx st; dctx := dctx st; live := h |})
    | _ => (Fault, st)
    end
  | _ => (Fault, st)
  end.

Section operations.
Context `{Codec}.

(** The [n] bytes at a pointer. *)
Definition buf (p : list byte) (n : Z) : list byte := firstn (Z.to_nat n) p.

(** Bytes the codec stored through [VARDATA(dst)]: more than the chunk
    holds after its header is a write past the chunk. *)
Definition store (dst : bytea) (w : list byte) : M bytea :=
  if len w >? Z.max 0 (chunk_size dst - VARHDRSZ) then fault
  else mret {| chunk_size := chunk_size dst; vl_len_ := vl_len_ dst;
               vl_dat := w |}.

(** The calls zstd.c makes to the codec.  The two that take a context are
    made whatever the context is (lines 71 and 113 test nothing); what the
    codec does with a null or released context is undefined. *)
Definition call_compressBound (srcSize : Z) : M Z :=
  emit (Ev_compressBound srcSize) ;; mret (ZSTD_compressBound srcSize).

Definition call_getFrameContentSize (src : list byte) (srcSize : Z) : M Z :=
  emit (Ev_getFrameContentSize srcSize) ;;
  mret (ZSTD_getFrameContentSize (buf src srcSize)).

Definition call_compress_usingDict (st : pg_state) (ctx : ptr) (dst : bytea)
    (dstCapacity : Z) (src : list byte) (srcSize : Z)
    (dict : option (list byte)) (dictSize : Z) (level : Z) : M (Z * bytea) :=
  emit (Ev_compress_usingDict dstCapacity srcSize dictSize level) ;;
  if valid_ctx st ctx then
    let '(r, w) := ZSTD_compress_usingDict dstCapacity (buf src srcSize)
                     ((fun d => buf d dictSize) <$> dict) level in
    dst ← store dst w; mret (r, dst)
  else fault.

Definition call_decompress_usingDict (st : pg_state) (ctx : ptr) (dst : bytea)
    (dstCapacity : Z) (src : list byte) (srcSize : Z)
    (dict : option (list byte)) (dictSize : Z) : M (Z * bytea) :=
  emit (Ev_decompress_usingDict dstCapacity srcSize dictSize) ;;
  if valid_ctx st ctx then
    let '(r, w) := ZSTD_decompress_usingDict dstCapacity (buf src srcSize)
                     ((fun d => buf d dictSize) <$> dict) in
    dst ← store dst w; mret (r, dst)
  else fault.

(** Lines 61-66 and 95-100: the dictionary pointer and length. *)
Definition dict_arg (arg1 : option bytea) : option (list byte) * Z :=
  match arg1 with
  | None => (None, 0)
  | Some d => (Some (VARDATA d), size_t (VARSIZE d - VARHDRSZ))
  end.

(** Lines 46-80. *)
Definition compress (st : pg_state) (arg0 arg1 : option bytea)
    (arg2 : option Z) : M bytea :=
  match arg0 with
  | None => PG_RETURN_NULL
  | Some in_ =>
    let in_len := size_t (VARSIZE in_ - VARHDRSZ) in
    let level := match arg2 with
                 | None => DEFAULT_COMPRESSION_LEVEL
                 | Some l => l
                 end in
    let '(dict, dict_len) := dict_arg arg1 in
    out_len ← call_compressBound in_len;
    out ← palloc (size_t (out_len + VARHDRSZ));
    '(out_len, out) ← call_compress_usingDict st (cctx st) out out_len
                        (VARDATA in_) in_len dict dict_len level;
    if ZSTD_isError out_len then
      elog ERROR ("ZSTD_compress_usingDict failed: "
                  +:+ ZSTD_getErrorName out_len)
    else
      out ← repalloc out (size_t (out_len + VARHDRSZ));
      out ← SET_VARSIZE out (size_t (out_len + VARHDRSZ));
      PG_RETURN_BYTEA_P out
  end.

(** Lines 83-120, with [ZSTD_CONTENTSIZE_UNKNOWN] defined (zstd 1.3.0 and
    later). *)
Definition decompress (st : pg_state) (arg0 arg1 : option bytea) : M bytea :=
  match arg0 with
  | None => PG_RETURN_NULL
  | Some in_ =>
    let in_len := size_t (VARSIZE in_ - VARHDRSZ) in
    let '(dict, dict_len) := dict_arg arg1 in
    out_len ← call_getFrameContentSize (VARDATA in_) in_len;
    if out_len =? ZSTD_CONTENTSIZE_UNKNOWN then
      elog ERROR "ZSTD_getFrameContentSize returned unknown"
    else if out_len =? ZSTD_CONTENTSIZE_ERROR then
      elog ERROR "ZSTD_getFrameContentSize failed"
    else
      out ← palloc (size_t (out_len + VARHDRSZ));
      '(out_len, out) ← call_decompress_usingDict st (dctx st) out out_len
                          (VARDATA in_) in_len dict dict_len;
      if ZSTD_isError out_len then
        elog ERROR ("ZSTD_decompress_usingDict failed: "
                    +:+ ZSTD_getErrorName out_len)
      else
        out ← SET_VARSIZE out (size_t (out_len + VARHDRSZ));
        PG_RETURN_BYTEA_P out
  end.

(** Lines 123-147, same configuration. *)
Definition length (arg0 : option bytea) : M Z :=
  match arg0 with
  | None => PG_RETURN_NULL
  | Some in_ =>
    let in_len := size_t (VARSIZE in_ - VARHDRSZ) in
    out_len ← call_getFrameContentSize (VARDATA in_) in_len;
    if out_len =? ZSTD_CONTENTSIZE_UNKNOWN then PG_RETURN_NULL
    else if out_len =? ZSTD_CONTENTSIZE_ERROR then
      elog ERROR "ZSTD_getFrameContentSize failed"
    else if out_len >? PG_INT32_MAX then
      elog ERROR
        "ZSTD_getDecompressedSize returned value greater than PG_INT32_MAX"
    else PG_RETURN_INT32 (int32 out_len)
  end.

End operations.
End zstd.

(** ** The codec's contract *)

(** Memory safety of the two calls that write: a call never stores more
    than [dstCapacity] bytes through [dst]. *)
Class CodecWithinCapacity `{Codec} : Prop := {
  compress_within : forall cap src dict level,
    len (ZSTD_compress_usingDict cap src dict level).2 <= Z.max 0 cap;
  decompress_within : forall cap src dict,
    len (ZSTD_decompress_usingDict cap src dict).2 <= Z.max 0 cap
}.

(** What zstd.h promises about the calls zstd.c makes.  Statements about a
    frame are conditioned on the compress call that produced it having
    succeeded. *)
Class CodecContract `{Codec} : Prop := {
  within_capacity :: CodecWithinCapacity;
  (** With a destination of at least [ZSTD_compressBound(srcSize)] bytes,
      compression of an admissible input at a valid level succeeds. *)
  compress_succeeds : forall cap src dict level,
    ZSTD_minCLevel <= level <= ZSTD_maxCLevel ->
    len src < ZSTD_MAX_INPUT_SIZE ->
    ZSTD_compressBound (len src) <= cap ->
    ZSTD_isError (ZSTD_compress_usingDict cap src dict level).1 = false;
  (** A successful compression returns the number of bytes it stored. *)
  compress_size : forall cap src dict level,
    ZSTD_isError (ZSTD_compress_usingDict cap src dict level).1 = false ->
    (ZSTD_compress_usingDict cap src dict level).1
    = len (ZSTD_compress_usingDict cap src dict level).2;
  (** The frame it stored declares the size of the source ... *)
  frame_content_size : forall cap src dict level,
    ZSTD_isError (ZSTD_compress_usingDict cap src dict level).1 = false ->
    ZSTD_getFrameContentSize (ZSTD_compress_usingDict cap src dict level).2
    = len src;
  (** ... and decompresses to the source, with the same dictionary, into
      any destination that can hold it. *)
  frame_decompress : forall cap src dict level cap',
    ZSTD_isError (ZSTD_compress_usingDict cap src dict level).1 = false ->
    len src <= cap' ->
    ZSTD_decompress_usingDict cap'
      (ZSTD_compress_usingDict cap src dict level).2 dict = (len src, src)
    /\ ZSTD_isError (len src) = false;
  (** No frame header fits in an empty buffer. *)
  empty_not_a_frame : ZSTD_getFrameContentSize [] = ZSTD_CONTENTSIZE_ERROR;
  (** Every value a bytea can hold is an admissible input. *)
  max_input_size : MaxAllocSize < ZSTD_MAX_INPUT_SIZE
}.

(** The level [compress] passes to the codec (line 59). *)
Definition level_of (arg2 : option Z) : Z :=
  match arg2 with None => DEFAULT_COMPRESSION_LEVEL | Some l => l end.

(** The source bytes the functions pass to the codec for an argument:
    [VARDATA(in)] with [in_len = VARSIZE(in) - VARHDRSZ]. *)
Definition src_of (in_ : bytea) : list byte :=
  zstd.buf (VARDATA in_) (size_t (VARSIZE in_ - VARHDRSZ)).
Definition src_len (in_ : bytea) : Z := size_t (VARSIZE in_ - VARHDRSZ).

(** ** A reference codec

    A codec that stores its input uncompressed, in frames with a one-byte
    tag and, for tag [xfd], an 8-byte little-endian content size; error
    codes and names follow zstd's.  It ignores the dictionary.  It meets
    [CodecContract], which shows that the contract can be met, and the
    operations can be run on it. *)
Module stored.

Definition byte_of_Z (z : Z) : byte :=
  match Byte.of_N (Z.to_N (z mod 256)) with Some b => b | None => x00 end.
Definition Z_of_byte (b : byte) : Z := Z.of_N (Byte.to_N b).

Fixpoint le_bytes (k : nat) (n : Z) : list byte :=
  match k with
  | O => []
  | S k => byte_of_Z n :: le_bytes k (n / 256)
  end.

Fixpoint le_value (l : list byte) : Z :=
  match l with
  | [] => 0
  | b :: l => Z_of_byte b + 256 * le_value l
  end.

(** Error codes are [(size_t) -code]. *)
Definition ERR (code : Z) : Z := 2 ^ 64 - code.
Definition prefix_unknown : Z := 10.
Definition corruption_detected : Z := 20.
Definition parameter_outOfBound : Z := 42.
Definition dstSize_tooSmall : Z := 70.
Definition srcSize_wrong : Z := 72.
Definition maxCode : Z := 120.

Definition isError (code : Z) : bool := code >? ERR maxCode.

Definition getErrorName (code : Z) : string :=
  if negb (isError code) then "No error detected"
  else if code =? ERR prefix_unknown then "Unknown frame descriptor"
  else if code =? ERR corruption_detected then "Data corruption detected"
  else if code =? ERR parameter_outOfBound then "Parameter is out of bound"
  else if code =? ERR dstSize_tooSmall then "Destination buffer is too small"
  else if code =? ERR srcSize_wrong then "Src size is incorrect"
  else "Unspecified error code".

Definition MAX_INPUT_SIZE : Z := 0xFF00FF00FF00FF00.

Definition compressBound (srcSize : Z) : Z :=
  if srcSize >=? MAX_INPUT_SIZE then ERR srcSize_wrong
  else srcSize + Z.shiftr srcSize 8 + 64.

Definition frame_of (src : list byte) : list byte :=
  xfd :: le_bytes 8 (len src) ++ src.

Definition minCLevel : Z := -131072.
Definition maxCLevel : Z := 22.

Definition compress_usingDict (dstCapacity : Z) (src : list byte)
    (dict : option (list byte)) (level : Z) : Z * list byte :=
  if (level <? minCLevel) || (level >? maxCLevel) then
    (ERR parameter_outOfBound, [])
  else if len src >? MAX_INPUT_SIZE then (ERR srcSize_wrong, [])
  else if dstCapacity <? len (frame_of src) then (ERR dstSize_tooSmall, [])
  else (len (frame_of src), frame_of src).

Definition getFrameContentSize (src : list byte) : Z :=
  match src with
  | xfd :: rest =>
    if len rest <? 8 then ZSTD_CONTENTSIZE_ERROR
    else le_value (firstn 8 rest)
  | xfe :: _ => ZSTD_CONTENTSIZE_UNKNOWN
  | _ => ZSTD_CONTENTSIZE_ERROR
  end.

(** The payload is copied out first; a declared size is compared with the
    number of bytes regenerated once the frame has been read. *)
Definition decompress_usingDict (dstCapacity : Z) (src : list byte)
    (dict : option (list byte)) : Z * list byte :=
  match src with
  | xfd :: rest =>
    if len rest <? 8 then (ERR srcSize_wrong, [])
    else
      let payload := skipn 8 rest in
      if len payload >? dstCapacity then (ERR dstSize_tooSmall, [])
      else if len payload =? le_value (firstn 8 rest)
           then (len payload, payload)
           else (ERR corruption_detected, payload)
  | xfe :: payload =>
    if len payload >? dstCapacity then (ERR dstSize_tooSmall, [])
    else (len payload, payload)
  | _ => (ERR prefix_unknown, [])
  end.

#[global] Instance codec : Codec := {|
  ZSTD_compressBound := compressBound;
  ZSTD_compress_usingDict := compress_usingDict;
  ZSTD_decompress_usingDict := decompress_usingDict;
  ZSTD_getFrameContentSize := getFrameContentSize;
  ZSTD_isError := isError;
  ZSTD_getErrorName := getErrorName;
  ZSTD_minCLevel := minCLevel;
  ZSTD_maxCLevel := maxCLevel;
  ZSTD_MAX_INPUT_SIZE := MAX_INPUT_SIZE
|}.

End stored.

(** The dictionary bytes and length the functions pass to the codec. *)
Definition dict_of (arg1 : option bytea) : option (list byte) :=
  let '(dict, dict_len) := zstd.dict_arg arg1 in
  (fun d => zstd.buf d dict_len) <$> dict.
Definition dict_len_of (arg1 : option bytea) : Z := (zstd.dict_arg arg1).2.

(** ** Sample states and values *)

(** The state after a successful [_PG_init] in a freshly loaded library. *)
Definition ready : pg_state := (zstd._PG_init true true loaded).2.

(** Three bytes [0x41]; the empty value; a frame of the reference codec
    that declares no size; four bytes that are no frame; a frame whose
    header declares [2^64 - 4] bytes and carries one. *)
Definition aaa : bytea := bytea_of [x41; x41; x41].
Definition empty : bytea := bytea_of [].
Definition undeclared : bytea := bytea_of [xfe; x41].
Definition garbage : bytea := bytea_of [x00; x01; x02; x03].
Definition crafted : bytea :=
  bytea_of (xfd :: stored.le_bytes 8 (2 ^ 64 - 4) ++ [x41]).

(** A frame whose header declares [2^64 - 4] bytes and carries none. *)
Definition crafted_bare : bytea :=
  bytea_of (xfd :: stored.le_bytes 8 (2 ^ 64 - 4)).

(** A frame that declares three bytes and carries two. *)
Definition corrupt : bytea :=
  bytea_of (xfd :: stored.le_bytes 8 3 ++ [x41; x41]).

(** The largest bytea, [MaxAllocSize - VARHDRSZ] zero bytes; a frame of the
    reference codec whose header declares [2^30] bytes and carries none. *)
Definition largest : bytea :=
  {| chunk_size := MaxAllocSize; vl_len_ := MaxAllocSize;
     vl_dat := repeat x00 (Z.to_nat (MaxAllocSize - VARHDRSZ)) |}.
Definition oversized : bytea :=
  bytea_of (xfd :: stored.le_bytes 8 (2 ^ 30)).

(** ** Messages *)

(** Does the character occur in the string? *)
Fixpoint occurs (c : ascii) (s : string) : bool :=
  match s with
  | EmptyString => false
  | String c' s' => Ascii.eqb c c' || occurs c s'
  end.

(** ** Proof automation *)

(** Case analysis on the tests and codec results met while a function runs. *)
Ltac run_cases :=
  repeat (cbn [app fst snd chunk_size vl_len_ vl_dat negb fmap option_fmap
               option_map] in *;
          match goal with
          | |- context [ZSTD_compress_usingDict ?a ?b ?c ?d] =>
            destruct (ZSTD_compress_usingDict a b c d) eqn:?
          | |- context [ZSTD_decompress_usingDict ?a ?b ?c] =>
            destruct (ZSTD_decompress_usingDict a b c) eqn:?
          | |- context [if ?a >? ?b then _ else _] => destruct (a >? b) eqn:?
          | |- context [if ?a <? ?b then _ else _] => destruct (a <? b) eqn:?
          | |- context [if ?a =? ?b then _ else _] => destruct (a =? b) eqn:?
          | |- context [valid_ctx ?a ?b] => destruct (valid_ctx a b) eqn:?
          | |- context [if ZSTD_isError ?a then _ else _] =>
            destruct (ZSTD_isError a) eqn:?
          end);
  cbn [app fst snd chunk_size vl_len_ vl_dat negb] in *.

Ltac unfold_run :=
  cbv [zstd.call_compressBound zstd.call_compress_usingDict
       zstd.call_decompress_usingDict zstd.call_getFrameContentSize
       palloc repalloc zstd.store SET_VARSIZE mbind M_bind mret M_ret emit
       elog fault
       PG_RETURN_BYTEA_P PG_RETURN_INT32 PG_RETURN_NULL].

(** * Properties *)

(** ** Arithmetic of sizes *)

Lemma size_t_small z : 0 <= z < 2 ^ 64 -> size_t z = z.
Proof. intros Hz. unfold size_t, SIZE_BITS. now apply Z.mod_small. Qed.

Lemma gtb_false a b : (a >? b) = false -> a <= b.
Proof. destruct (Z.gtb_spec a b); [discriminate | intros _; lia]. Qed.

Lemma le_gtb a b : a <= b -> (a >? b) = false.
Proof. intros Hab. destruct (Z.gtb_spec a b); [lia | reflexivity]. Qed.

Lemma int32_small z : - 2 ^ 31 <= z < 2 ^ 31 -> int32 z = z.
Proof. intros Hz. unfold int32. rewrite Z.mod_small; lia. Qed.

Lemma firstn_len {A} (l : list A) : firstn (Z.to_nat (len l)) l = l.
Proof. rewrite Nat2Z.id. apply firstn_all. Qed.

Lemma wf_src_len in_ : wf_bytea in_ -> src_len in_ = len (VARDATA in_).
Proof.
  intros [Hsz Hmax]. unfold src_len. rewrite Hsz.
  replace (len (VARDATA in_) + VARHDRSZ - VARHDRSZ) with (len (VARDATA in_))
    by lia.
  apply size_t_small. unfold MaxAllocSize, VARHDRSZ in *. lia.
Qed.

Lemma wf_src_of in_ : wf_bytea in_ -> src_of in_ = VARDATA in_.
Proof.
  intros Hwf. unfold src_of, zstd.buf.
  change (size_t (VARSIZE in_ - VARHDRSZ)) with (src_len in_).
  rewrite (wf_src_len _ Hwf). apply firstn_len.
Qed.

Lemma wf_bytea_of l : len l + VARHDRSZ <= MaxAllocSize -> wf_bytea (bytea_of l).
Proof. intros Hl. split; [reflexivity | exact Hl]. Qed.

(** ** The reference codec meets the contract *)

Lemma Z_of_byte_of_Z z : stored.Z_of_byte (stored.byte_of_Z z) = z mod 256.
Proof.
  unfold stored.Z_of_byte, stored.byte_of_Z.
  assert (Hr : 0 <= z mod 256 < 256) by (apply Z.mod_pos_bound; lia).
  destruct (Byte.of_N (Z.to_N (z mod 256))) as [b|] eqn:E.
  - apply Byte.to_of_N in E. rewrite E. lia.
  - apply Byte.of_N_None_iff in E. lia.
Qed.

Lemma le_bytes_length k n : Datatypes.length (stored.le_bytes k n) = k.
Proof. revert n. induction k as [|k IH]; intros n; simpl; [|rewrite IH]; done. Qed.

Lemma le_value_le_bytes k n :
  0 <= n < 256 ^ Z.of_nat k -> stored.le_value (stored.le_bytes k n) = n.
Proof.
  revert n. induction k as [|k IH]; intros n Hn.
  - simpl in *. lia.
  - cbn [stored.le_bytes stored.le_value]. rewrite Z_of_byte_of_Z.
    rewrite IH.
    + pose proof (Z.div_mod n 256). lia.
    + rewrite Nat2Z.inj_succ, Z.pow_succ_r in Hn by lia.
      split; [apply Z.div_pos; lia | apply Z.div_lt_upper_bound; lia].
Qed.

Lemma frame_of_length src :
  len (stored.frame_of src) = len src + 9.
Proof.
  unfold stored.frame_of. cbn [Datatypes.length].
  rewrite length_app, le_bytes_length. lia.
Qed.

Lemma stored_frame_size src :
  len src <= stored.MAX_INPUT_SIZE ->
  stored.getFrameContentSize (stored.frame_of src) = len src.
Proof.
  intros Hs. unfold stored.getFrameContentSize, stored.frame_of.
  rewrite length_app, le_bytes_length.
  destruct (Z.ltb_spec (Z.of_nat (8 + Datatypes.length src)) 8); [lia|].
  rewrite firstn_app, le_bytes_length, Nat.sub_diag, firstn_O, app_nil_r.
  rewrite firstn_all2 by (rewrite le_bytes_length; lia).
  apply le_value_le_bytes. unfold stored.MAX_INPUT_SIZE in Hs. lia.
Qed.

Lemma stored_frame_decompress src cap' dict :
  len src <= stored.MAX_INPUT_SIZE -> len src <= cap' ->
  stored.decompress_usingDict cap' (stored.frame_of src) dict = (len src, src).
Proof.
  intros Hs Hc. unfold stored.decompress_usingDict, stored.frame_of.
  rewrite length_app, le_bytes_length.
  destruct (Z.ltb_spec (Z.of_nat (8 + Datatypes.length src)) 8); [lia|].
  rewrite skipn_app, le_bytes_length, Nat.sub_diag, skipn_O.
  rewrite skipn_all2 by (rewrite le_bytes_length; lia).
  rewrite firstn_app, le_bytes_length, Nat.sub_diag, firstn_O, app_nil_r.
  rewrite firstn_all2 by (rewrite le_bytes_length; lia).
  rewrite le_value_le_bytes by (unfold stored.MAX_INPUT_SIZE in Hs; lia).
  cbn [app]. destruct (Z.gtb_spec (len src) cap'); [lia|].
  now rewrite Z.eqb_refl.
Qed.

Lemma stored_compress_ok cap src dict level :
  stored.isError (stored.compress_usingDict cap src dict level).1 = false ->
  stored.compress_usingDict cap src dict level
  = (len (stored.frame_of src), stored.frame_of src)
  /\ len src <= stored.MAX_INPUT_SIZE.
Proof.
  unfold stored.compress_usingDict.
  destruct (_ || _); [discriminate|].
  destruct (Z.gtb_spec (len src) stored.MAX_INPUT_SIZE); [discriminate|].
  destruct (Z.ltb_spec cap (len (stored.frame_of src))); [discriminate|].
  intros _. split; [reflexivity | assumption].
Qed.

#[global] Instance stored_within : CodecWithinCapacity (H := stored.codec).
Proof.
  split.
  - intros cap src dict level. cbn [ZSTD_compress_usingDict stored.codec].
    unfold stored.compress_usingDict.
    destruct (_ || _); [simpl; lia|].
    destruct (Z.gtb_spec (len src) stored.MAX_INPUT_SIZE); [simpl; lia|].
    destruct (Z.ltb_spec cap (len (stored.frame_of src)));
      cbn [snd Datatypes.length]; lia.
  - intros cap src dict. cbn [ZSTD_decompress_usingDict stored.codec].
    unfold stored.decompress_usingDict.
    destruct src as [|b rest]; [simpl; lia|].
    destruct (Byte.byte_eq_dec b xfd) as [->|Hfd].
    + destruct (Z.ltb_spec (len rest) 8); [simpl; lia|].
      destruct (Z.gtb_spec (len (skipn 8 rest)) cap); [simpl; lia|].
      destruct (_ =? _); cbn [snd]; lia.
    + destruct (Byte.byte_eq_dec b xfe) as [->|Hfe].
      * destruct (Z.gtb_spec (len rest) cap); cbn [snd Datatypes.length]; lia.
      * destruct b; try congruence; simpl; lia.
Qed.

#[global] Instance stored_contract : CodecContract (H := stored.codec).
Proof.
  split.
  - exact stored_within.
  - intros cap src dict level Hlv Hs Hc.
    cbn [ZSTD_compress_usingDict ZSTD_compressBound ZSTD_isError
         ZSTD_MAX_INPUT_SIZE ZSTD_minCLevel ZSTD_maxCLevel stored.codec] in *.
    unfold stored.compress_usingDict.
    destruct (Z.ltb_spec level stored.minCLevel); [lia|].
    destruct (Z.gtb_spec level stored.maxCLevel); [lia|]. cbn [orb].
    destruct (Z.gtb_spec (len src) stored.MAX_INPUT_SIZE); [lia|].
    unfold stored.compressBound in Hc.
    destruct (Z.geb_spec (len src) stored.MAX_INPUT_SIZE).
    + unfold stored.MAX_INPUT_SIZE in *. lia.
    + pose proof (Z.shiftr_nonneg (len src) 8).
      destruct (Z.ltb_spec cap (len (stored.frame_of src))) as [Hlt|Hge].
      * rewrite frame_of_length in Hlt. lia.
      * cbn [fst]. unfold stored.isError, stored.ERR, stored.maxCode.
        rewrite frame_of_length. unfold stored.MAX_INPUT_SIZE in *.
        destruct (Z.gtb_spec (len src + 9) (2 ^ 64 - 120)); [lia|done].
  - intros cap src dict level Hok.
    cbn [ZSTD_compress_usingDict ZSTD_isError stored.codec] in *.
    destruct (stored_compress_ok _ _ _ _ Hok) as [-> _]. reflexivity.
  - intros cap src dict level Hok.
    cbn [ZSTD_compress_usingDict ZSTD_isError ZSTD_getFrameContentSize
         stored.codec] in *.
    destruct (stored_compress_ok _ _ _ _ Hok) as [-> Hs].
    now apply stored_frame_size.
  - intros cap src dict level cap' Hok Hc.
    cbn [ZSTD_compress_usingDict ZSTD_isError ZSTD_decompress_usingDict
         stored.codec] in *.
    destruct (stored_compress_ok _ _ _ _ Hok) as [-> Hs]. split.
    + now apply stored_frame_decompress.
    + unfold stored.isError, stored.ERR, stored.maxCode.
      unfold stored.MAX_INPUT_SIZE in Hs.
      destruct (Z.gtb_spec (len src) (2 ^ 64 - 120)); [lia|done].
  - reflexivity.
  - cbn. unfold MaxAllocSize, stored.MAX_INPUT_SIZE. lia.
Qed.

(** ** Running the operations *)

Section runs.
Context `{Codec}.

(** [compress] on a present input, as one chain of tests. *)
Lemma compress_unfold st in_ arg1 arg2 :
  zstd.compress st (Some in_) arg1 arg2 =
  let n := src_len in_ in
  let bound := ZSTD_compressBound n in
  let sz := size_t (bound + VARHDRSZ) in
  let rw := ZSTD_compress_usingDict bound (src_of in_) (dict_of arg1)
              (level_of arg2) in
  let call := Ev_compress_usingDict bound n (dict_len_of arg1)
                (level_of arg2) in
  let sz' := size_t (rw.1 + VARHDRSZ) in
  if sz >? MaxAllocSize then
    (Raise ERROR "invalid memory alloc request size", [Ev_compressBound n])
  else if negb (valid_ctx st (cctx st)) then
    (Fault, [Ev_compressBound n; Ev_palloc sz; call])
  else if len rw.2 >? Z.max 0 (sz - VARHDRSZ) then
    (Fault, [Ev_compressBound n; Ev_palloc sz; call])
  else if ZSTD_isError rw.1 then
    (Raise ERROR ("ZSTD_compress_usingDict failed: "
                  +:+ ZSTD_getErrorName rw.1),
     [Ev_compressBound n; Ev_palloc sz; call])
  else if sz' >? MaxAllocSize then
    (Raise ERROR "invalid memory alloc request size",
     [Ev_compressBound n; Ev_palloc sz; call])
  else if sz' <? VARHDRSZ then
    (Fault, [Ev_compressBound n; Ev_palloc sz; call; Ev_repalloc sz'])
  else
    (Ret {| chunk_size := sz'; vl_len_ := sz' mod 2 ^ 30;
            vl_dat := firstn (Z.to_nat (sz' - VARHDRSZ)) rw.2 |},
     [Ev_compressBound n; Ev_palloc sz; call; Ev_repalloc sz']).
Proof.
  unfold zstd.compress, src_len, src_of, dict_of, dict_len_of, level_of.
  destruct arg1 as [d|]; cbn [zstd.dict_arg]; unfold_run; cbv zeta;
    run_cases; try reflexivity; congruence.
Qed.

(** [decompress] on a present input. *)
Lemma decompress_unfold st in_ arg1 :
  zstd.decompress st (Some in_) arg1 =
  let n := src_len in_ in
  let q := ZSTD_getFrameContentSize (src_of in_) in
  let sz := size_t (q + VARHDRSZ) in
  let rw := ZSTD_decompress_usingDict q (src_of in_) (dict_of arg1) in
  let call := Ev_decompress_usingDict q n (dict_len_of arg1) in
  if q =? ZSTD_CONTENTSIZE_UNKNOWN then
    (Raise ERROR "ZSTD_getFrameContentSize returned unknown",
     [Ev_getFrameContentSize n])
  else if q =? ZSTD_CONTENTSIZE_ERROR then
    (Raise ERROR "ZSTD_getFrameContentSize failed",
     [Ev_getFrameContentSize n])
  else if sz >? MaxAllocSize then
    (Raise ERROR "invalid memory alloc request size",
     [Ev_getFrameContentSize n])
  else if negb (valid_ctx st (dctx st)) then
    (Fault, [Ev_getFrameContentSize n; Ev_palloc sz; call])
  else if len rw.2 >? Z.max 0 (sz - VARHDRSZ) then
    (Fault, [Ev_getFrameContentSize n; Ev_palloc sz; call])
  else if ZSTD_isError rw.1 then
    (Raise ERROR ("ZSTD_decompress_usingDict failed: "
                  +:+ ZSTD_getErrorName rw.1),
     [Ev_getFrameContentSize n; Ev_palloc sz; call])
  else if sz <? VARHDRSZ then
    (Fault, [Ev_getFrameContentSize n; Ev_palloc sz; call])
  else
    (Ret {| chunk_size := sz; vl_len_ := size_t (rw.1 + VARHDRSZ) mod 2 ^ 30;
            vl_dat := rw.2 |},
     [Ev_getFrameContentSize n; Ev_palloc sz; call]).
Proof.
  unfold zstd.decompress, src_len, src_of, dict_of, dict_len_of.
  destruct arg1 as [d|]; cbn [zstd.dict_arg]; unfold_run; cbv zeta;
    run_cases; try reflexivity; congruence.
Qed.

(** [length] on a present input. *)
Lemma length_unfold in_ :
  zstd.length (Some in_) =
  let n := src_len in_ in
  let q := ZSTD_getFrameContentSize (src_of in_) in
  if q =? ZSTD_CONTENTSIZE_UNKNOWN then (Null, [Ev_getFrameContentSize n])
  else if q =? ZSTD_CONTENTSIZE_ERROR then
    (Raise ERROR "ZSTD_getFrameContentSize failed",
     [Ev_getFrameContentSize n])
  else if q >? PG_INT32_MAX then
    (Raise ERROR
       "ZSTD_getDecompressedSize returned value greater than PG_INT32_MAX",
     [Ev_getFrameContentSize n])
  else (Ret (int32 q), [Ev_getFrameContentSize n]).
Proof.
  unfold zstd.length, src_len, src_of. unfold_run; cbv zeta.
  run_cases; reflexivity.
Qed.

End runs.

(** ** Absent arguments *)

(** C4.  Absence propagation: with an absent (NULL) input each of the three
    functions returns NULL at once, nothing else happening and no error
    being reported.  Conversely [compress] and [decompress] return NULL
    only for an absent input, and [length] returns NULL only for an absent
    input or a frame whose content size the codec reports as unknown. *)
Theorem absence_propagation `{Codec} (st : pg_state) (a d : option bytea)
    (l : option Z) :
  zstd.compress st None d l = (Null, []) /\
  zstd.decompress st None d = (Null, []) /\
  zstd.length None = (Null, []) /\
  ((zstd.compress st a d l).1 = Null <-> a = None) /\
  ((zstd.decompress st a d).1 = Null <-> a = None) /\
  ((zstd.length a).1 = Null <->
   a = None \/
   exists in_, a = Some in_ /\
     ZSTD_getFrameContentSize (src_of in_) = ZSTD_CONTENTSIZE_UNKNOWN).
Proof.
  do 3 (split; [reflexivity|]).
  split; [split|split; [split|split]].
  - destruct a as [in_|]; [|reflexivity].
    rewrite compress_unfold. cbv zeta. run_cases; intros ?; discriminate.
  - intros ->. reflexivity.
  - destruct a as [in_|]; [|reflexivity].
    rewrite decompress_unfold. cbv zeta. run_cases; intros ?; discriminate.
  - intros ->. reflexivity.
  - destruct a as [in_|]; [|now left].
    rewrite length_unfold. cbv zeta. run_cases; intros ?; try discriminate;
      right; exists in_; (split; [reflexivity | now apply Z.eqb_eq]).
  - intros [->|(in_ & -> & Hq)]; [reflexivity|].
    rewrite length_unfold. cbv zeta. rewrite Hq. reflexivity.
Qed.

(** ** The default level *)

(** C9.  An absent level argument is the level 3: [compress] with no level
    is, outcome and events, [compress] with level 3. *)
Theorem default_level `{Codec} (st : pg_state) (a d : option bytea) :
  zstd.compress st a d None = zstd.compress st a d (Some 3).
Proof. destruct a as [in_|]; reflexivity. Qed.

(** ** The content-size query *)

(** C6.  When the codec reports the content size of the input's frame as
    unknown, [decompress] raises an error and [length] returns NULL; when
    the query itself fails, both raise an error.  Nothing is allocated and
    no other codec call is made in either case. *)
Theorem content_size_unknown_or_error `{Codec} (st : pg_state) (in_ : bytea)
    (d : option bytea) :
  (ZSTD_getFrameContentSize (src_of in_) = ZSTD_CONTENTSIZE_UNKNOWN ->
   zstd.decompress st (Some in_) d
   = (Raise ERROR "ZSTD_getFrameContentSize returned unknown",
      [Ev_getFrameContentSize (src_len in_)]) /\
   zstd.length (Some in_) = (Null, [Ev_getFrameContentSize (src_len in_)]))
  /\
  (ZSTD_getFrameContentSize (src_of in_) = ZSTD_CONTENTSIZE_ERROR ->
   zstd.decompress st (Some in_) d
   = (Raise ERROR "ZSTD_getFrameContentSize failed",
      [Ev_getFrameContentSize (src_len in_)]) /\
   zstd.length (Some in_)
   = (Raise ERROR "ZSTD_getFrameContentSize failed",
      [Ev_getFrameContentSize (src_len in_)])).
Proof.
  split; intros Hq; rewrite decompress_unfold, length_unfold; cbv zeta;
    rewrite Hq; split; reflexivity.
Qed.

Lemma content_size_unknown_or_error_witness :
  (zstd.decompress ready (Some undeclared) None
   = (Raise ERROR "ZSTD_getFrameContentSize returned unknown",
      [Ev_getFrameContentSize 2]) /\
   zstd.length (Some undeclared) = (Null, [Ev_getFrameContentSize 2]))
  /\
  (zstd.decompress ready (Some garbage) None
   = (Raise ERROR "ZSTD_getFrameContentSize failed",
      [Ev_getFrameContentSize 4]) /\
   zstd.length (Some garbage)
   = (Raise ERROR "ZSTD_getFrameContentSize failed",
      [Ev_getFrameContentSize 4])).
Proof.
  split.
  - apply (proj1 (content_size_unknown_or_error ready undeclared None)).
    reflexivity.
  - apply (proj2 (content_size_unknown_or_error ready garbage None)).
    reflexivity.
Defined.

(** ** Successful compression *)

Section success.
Context `{CodecContract}.

(** What a returned value says about the run that produced it. *)
Lemma compress_ret_inv st in_ d lv c t :
  zstd.compress st (Some in_) d lv = (Ret c, t) ->
  let bound := ZSTD_compressBound (src_len in_) in
  let rw := ZSTD_compress_usingDict bound (src_of in_) (dict_of d)
              (level_of lv) in
  ZSTD_isError rw.1 = false /\
  rw.1 = len rw.2 /\
  len rw.2 + VARHDRSZ <= MaxAllocSize /\
  c = bytea_of rw.2 /\
  t = [Ev_compressBound (src_len in_);
       Ev_palloc (size_t (bound + VARHDRSZ));
       Ev_compress_usingDict bound (src_len in_) (dict_len_of d)
         (level_of lv);
       Ev_repalloc (len rw.2 + VARHDRSZ)].
Proof.
  rewrite compress_unfold. cbv zeta.
  pose proof (compress_size (ZSTD_compressBound (src_len in_)) (src_of in_)
                (dict_of d) (level_of lv)) as Hsize.
  destruct (ZSTD_compress_usingDict _ _ _ _) as [r w] eqn:E.
  cbn [fst snd] in *.
  destruct (_ >? MaxAllocSize) eqn:Hsz; [discriminate|].
  destruct (valid_ctx _ _); [|discriminate]. cbn [negb].
  destruct (len w >? _) eqn:Hw; [discriminate|].
  destruct (ZSTD_isError r); [discriminate|].
  specialize (Hsize eq_refl). subst r.
  apply gtb_false in Hsz, Hw.
  assert (Hfit : size_t (len w + VARHDRSZ) = len w + VARHDRSZ).
  { apply size_t_small. unfold MaxAllocSize, VARHDRSZ in *. lia. }
  rewrite Hfit.
  destruct (_ >? MaxAllocSize) eqn:Hsz'; [discriminate|].
  apply gtb_false in Hsz'.
  destruct (Z.ltb_spec (len w + VARHDRSZ) VARHDRSZ); [discriminate|].
  intros [= <- <-]. unfold bytea_of.
  replace (len w + VARHDRSZ - VARHDRSZ) with (len w) by lia.
  rewrite firstn_len, Z.mod_small
    by (unfold MaxAllocSize, VARHDRSZ in *; lia).
  repeat split; lia.
Qed.

(** With live handles, a well-formed input, a valid level and a bound the
    allocator grants, [compress] returns the frame the codec wrote. *)
Lemma compress_runs st in_ d lv :
  wf_bytea in_ ->
  valid_ctx st (cctx st) = true ->
  ZSTD_minCLevel <= level_of lv <= ZSTD_maxCLevel ->
  0 <= ZSTD_compressBound (len (VARDATA in_)) ->
  ZSTD_compressBound (len (VARDATA in_)) + VARHDRSZ <= MaxAllocSize ->
  let bound := ZSTD_compressBound (len (VARDATA in_)) in
  let rw := ZSTD_compress_usingDict bound (VARDATA in_) (dict_of d)
              (level_of lv) in
  ZSTD_isError rw.1 = false /\
  len rw.2 + VARHDRSZ <= MaxAllocSize /\
  zstd.compress st (Some in_) d lv
  = (Ret (bytea_of rw.2),
     [Ev_compressBound (len (VARDATA in_));
      Ev_palloc (bound + VARHDRSZ);
      Ev_compress_usingDict bound (len (VARDATA in_)) (dict_len_of d)
        (level_of lv);
      Ev_repalloc (len rw.2 + VARHDRSZ)]).
Proof.
  intros Hwf Hctx Hlv Hb0 Hb. cbv zeta.
  rewrite compress_unfold. cbv zeta.
  rewrite (wf_src_len _ Hwf), (wf_src_of _ Hwf), Hctx. cbn [negb].
  set (bound := ZSTD_compressBound (len (VARDATA in_))) in *.
  destruct Hwf as [Hsz Hmax]. pose proof max_input_size as Hmi.
  assert (Hin : len (VARDATA in_) < ZSTD_MAX_INPUT_SIZE)
    by (unfold VARHDRSZ in *; lia).
  pose proof (compress_succeeds bound (VARDATA in_) (dict_of d) (level_of lv)
                Hlv Hin (Z.le_refl _)) as Hok.
  pose proof (compress_size bound (VARDATA in_) (dict_of d) (level_of lv) Hok)
    as Hsize.
  pose proof (compress_within bound (VARDATA in_) (dict_of d) (level_of lv))
    as Hwithin.
  destruct (ZSTD_compress_usingDict _ _ _ _) as [r w] eqn:E.
  cbn [fst snd] in *. subst r. rewrite Hok.
  assert (Hfit : size_t (bound + VARHDRSZ) = bound + VARHDRSZ).
  { apply size_t_small. unfold MaxAllocSize, VARHDRSZ in *. lia. }
  assert (Hfit' : size_t (len w + VARHDRSZ) = len w + VARHDRSZ).
  { apply size_t_small. unfold MaxAllocSize, VARHDRSZ in *. lia. }
  rewrite Hfit, Hfit'.
  rewrite !le_gtb by lia.
  destruct (Z.ltb_spec (len w + VARHDRSZ) VARHDRSZ); [lia|].
  split; [reflexivity|]. split; [lia|]. unfold bytea_of.
  replace (len w + VARHDRSZ - VARHDRSZ) with (len w) by lia.
  rewrite firstn_len, Z.mod_small
    by (unfold MaxAllocSize, VARHDRSZ in *; lia).
  reflexivity.
Qed.

(** [decompress] and [length] on the frame of a successful compression. *)
Lemma frame_runs st cap src dict level d :
  ZSTD_isError (ZSTD_compress_usingDict cap src dict level).1 = false ->
  len (ZSTD_compress_usingDict cap src dict level).2 + VARHDRSZ
    <= MaxAllocSize ->
  len src + VARHDRSZ <= MaxAllocSize ->
  let c := bytea_of (ZSTD_compress_usingDict cap src dict level).2 in
  zstd.length (Some c)
  = (Ret (len src), [Ev_getFrameContentSize (VARSIZE c - VARHDRSZ)]) /\
  (valid_ctx st (dctx st) = true -> dict_of d = dict ->
   zstd.decompress st (Some c) d
   = (Ret (bytea_of src),
      [Ev_getFrameContentSize (VARSIZE c - VARHDRSZ);
       Ev_palloc (len src + VARHDRSZ);
       Ev_decompress_usingDict (len src) (VARSIZE c - VARHDRSZ)
         (dict_len_of d)])).
Proof.
  intros Hok Hc Hs. cbv zeta.
  pose proof (frame_content_size cap src dict level Hok) as Hq.
  pose proof (fun cap' => frame_decompress cap src dict level cap' Hok) as Hd.
  set (w := (ZSTD_compress_usingDict cap src dict level).2) in *.
  assert (Hwf : wf_bytea (bytea_of w)) by now apply wf_bytea_of.
  assert (Hlen : VARSIZE (bytea_of w) - VARHDRSZ = len w)
    by (cbn [VARSIZE bytea_of vl_len_]; lia).
  rewrite Hlen.
  assert (Hn1 : (len src =? ZSTD_CONTENTSIZE_UNKNOWN) = false).
  { apply Z.eqb_neq.
    unfold ZSTD_CONTENTSIZE_UNKNOWN, MaxAllocSize, VARHDRSZ in *. lia. }
  assert (Hn2 : (len src =? ZSTD_CONTENTSIZE_ERROR) = false).
  { apply Z.eqb_neq.
    unfold ZSTD_CONTENTSIZE_ERROR, MaxAllocSize, VARHDRSZ in *. lia. }
  split.
  - rewrite length_unfold. cbv zeta.
    rewrite (wf_src_len _ Hwf), (wf_src_of _ Hwf).
    cbn [VARDATA bytea_of vl_dat]. rewrite Hq, Hn1, Hn2.
    rewrite le_gtb, int32_small; [reflexivity | |];
      unfold PG_INT32_MAX, MaxAllocSize, VARHDRSZ in *; lia.
  - intros Hctx Hdict. rewrite decompress_unfold. cbv zeta.
    rewrite (wf_src_len _ Hwf), (wf_src_of _ Hwf), Hctx, Hdict.
    cbn [VARDATA bytea_of vl_dat negb]. rewrite Hq, Hn1, Hn2.
    destruct (Hd (len src) (Z.le_refl _)) as [-> Herr]. cbn [fst snd].
    rewrite Herr.
    assert (Hfit : size_t (len src + VARHDRSZ) = len src + VARHDRSZ).
    { apply size_t_small. unfold MaxAllocSize, VARHDRSZ in *. lia. }
    rewrite Hfit, !le_gtb by lia.
    destruct (Z.ltb_spec (len src + VARHDRSZ) VARHDRSZ); [lia|].
    rewrite Z.mod_small by (unfold MaxAllocSize, VARHDRSZ in *; lia).
    reflexivity.
Qed.

End success.

(** ** Exact-fit output of compress *)

(** C8.  When [compress] returns a value, the value's length is the number
    of bytes the codec reported and stored: the chunk was requested at the
    codec's worst-case bound for the input length (plus the header), and
    shrunk with [repalloc] to the bytes written (plus the header) before
    being returned. *)
Theorem compress_exact_fit `{CodecContract} (st : pg_state) (in_ : bytea)
    (d : option bytea) (lv : option Z) (c : bytea) (t : list event) :
  zstd.compress st (Some in_) d lv = (Ret c, t) ->
  let bound := ZSTD_compressBound (src_len in_) in
  let rw := ZSTD_compress_usingDict bound (src_of in_) (dict_of d)
              (level_of lv) in
  VARSIZE c - VARHDRSZ = rw.1 /\
  len (VARDATA c) = rw.1 /\
  bytes_of c = rw.2 /\
  chunk_size c = rw.1 + VARHDRSZ /\
  t = [Ev_compressBound (src_len in_);
       Ev_palloc (size_t (bound + VARHDRSZ));
       Ev_compress_usingDict bound (src_len in_) (dict_len_of d)
         (level_of lv);
       Ev_repalloc (rw.1 + VARHDRSZ)].
Proof.
  intros Hrun. cbv zeta.
  destruct (compress_ret_inv _ _ _ _ _ _ Hrun) as (_ & Hr & _ & -> & ->).
  rewrite Hr. unfold bytes_of. cbn [VARSIZE VARDATA bytea_of vl_len_ vl_dat
                                    chunk_size].
  replace (len _ + VARHDRSZ - VARHDRSZ) with
    (len (ZSTD_compress_usingDict (ZSTD_compressBound (src_len in_))
            (src_of in_) (dict_of d) (level_of lv)).2) by lia.
  rewrite firstn_len. repeat split; lia.
Qed.

Lemma compress_exact_fit_witness :
  let c := bytea_of (stored.frame_of [x41; x41; x41]) in
  VARSIZE c - VARHDRSZ = 12 /\
  len (VARDATA c) = 12 /\
  bytes_of c = stored.frame_of [x41; x41; x41] /\
  chunk_size c = 12 + VARHDRSZ /\
  [Ev_compressBound 3; Ev_palloc 71; Ev_compress_usingDict 67 3 0 3;
   Ev_repalloc 16]
  = [Ev_compressBound 3; Ev_palloc 71; Ev_compress_usingDict 67 3 0 3;
     Ev_repalloc (12 + VARHDRSZ)].
Proof.
  exact (compress_exact_fit ready aaa None None
           (bytea_of (stored.frame_of [x41; x41; x41]))
           [Ev_compressBound 3; Ev_palloc 71; Ev_compress_usingDict 67 3 0 3;
            Ev_repalloc 16]
           eq_refl).
Defined.

(** ** Empty input *)



(** ** Round trip *)



(** ** Length agreement *)

(** C5.  Length agreement: whenever [compress] returns a value [c] for a
    well-formed input [b], [length] of [c] returns the number of data bytes
    of [b], after the content-size query alone. *)
Theorem length_agreement `{CodecContract} (st : pg_state) (b : bytea)
    (d : option bytea) (lv : option Z) (c : bytea) (t : list event) :
  wf_bytea b ->
  zstd.compress st (Some b) d lv = (Ret c, t) ->
  zstd.length (Some c)
  = (Ret (len (VARDATA b)), [Ev_getFrameContentSize (VARSIZE c - VARHDRSZ)])
  /\ len (VARDATA b) = VARSIZE b - VARHDRSZ.
Proof.
  intros Hwf Hrun.
  destruct (compress_ret_inv _ _ _ _ _ _ Hrun) as (Hok & _ & Hfit & -> & _).
  rewrite (wf_src_len _ Hwf), (wf_src_of _ Hwf) in Hok, Hfit |- *.
  destruct Hwf as [Hsz Hmax].
  assert (Hs : len (VARDATA b) + VARHDRSZ <= MaxAllocSize) by lia.
  destruct (frame_runs st _ _ _ _ d Hok Hfit Hs) as [Hlen _].
  split; [exact Hlen | lia].
Qed.

Lemma length_agreement_witness :
  zstd.length (Some (bytea_of (stored.frame_of [x41; x41; x41])))
  = (Ret 3, [Ev_getFrameContentSize 12])
  /\ len (VARDATA aaa) = VARSIZE aaa - VARHDRSZ.
Proof.
  assert (Hwf : wf_bytea aaa) by (apply wf_bytea_of; vm_compute; discriminate).
  exact (length_agreement ready aaa None None
           (bytea_of (stored.frame_of [x41; x41; x41]))
           [Ev_compressBound 3; Ev_palloc 71; Ev_compress_usingDict 67 3 0 3;
            Ev_repalloc 16]
           Hwf eq_refl).
Defined.

(** ** Codec errors *)

Lemma occurs_app c s1 s2 :
  occurs c (s1 +:+ s2) = occurs c s1 || occurs c s2.
Proof.
  induction s1 as [|a s1 IH]; simpl; [reflexivity|].
  rewrite IH. apply orb_assoc.
Qed.

(** C7, as stated, fails for the content-size query.  On four bytes that
    are no frame the reference codec reports [ZSTD_CONTENTSIZE_ERROR];
    [decompress] and [length] raise an error whose message is the fixed
    text of zstd.c, which does not contain the description the codec gives
    for that value. *)
Lemma size_query_error_message_is_fixed :
  ZSTD_getFrameContentSize (src_of garbage) = ZSTD_CONTENTSIZE_ERROR /\
  zstd.decompress ready (Some garbage) None
  = (Raise ERROR "ZSTD_getFrameContentSize failed",
     [Ev_getFrameContentSize 4]) /\
  zstd.length (Some garbage)
  = (Raise ERROR "ZSTD_getFrameContentSize failed",
     [Ev_getFrameContentSize 4]) /\
  ZSTD_getErrorName ZSTD_CONTENTSIZE_ERROR = "Unspecified error code" /\
  ~ (exists pre post,
       "ZSTD_getFrameContentSize failed"
       = pre +:+ ZSTD_getErrorName ZSTD_CONTENTSIZE_ERROR +:+ post).
Proof.
  do 4 (split; [reflexivity|]).
  intros (pre & post & Heq).
  apply (f_equal (occurs "p"%char)) in Heq.
  rewrite !occurs_app in Heq.
  change (ZSTD_getErrorName ZSTD_CONTENTSIZE_ERROR)
    with "Unspecified error code" in Heq.
  change (occurs "p"%char "Unspecified error code") with true in Heq.
  change (occurs "p"%char "ZSTD_getFrameContentSize failed") with false in Heq.
  rewrite orb_true_l, orb_true_r in Heq. discriminate Heq.
Qed.

(** C7, amended.  Whenever [ZSTD_compress_usingDict] or
    [ZSTD_decompress_usingDict] is reached with a live context (the
    allocator has granted the output buffer and, for [decompress], the size
    query has returned a size) and returns an error code, nothing follows
    the call.  The operation ends in an error whose message is the fixed
    prefix of zstd.c followed by the codec's name for that code, unless the
    codec stored more bytes than the chunk holds after its header, which
    is undefined behaviour.  A failed content-size query ends [decompress]
    and [length] at once with an error of fixed text.  And a function that
    returns a value met no codec error on the way. *)
Theorem codec_errors_surface `{Codec} (st : pg_state) (in_ : bytea)
    (d : option bytea) (lv : option Z) :
  let n := src_len in_ in
  let bound := ZSTD_compressBound n in
  let sz := size_t (bound + VARHDRSZ) in
  let rc := ZSTD_compress_usingDict bound (src_of in_) (dict_of d)
              (level_of lv) in
  let q := ZSTD_getFrameContentSize (src_of in_) in
  let szd := size_t (q + VARHDRSZ) in
  let rd := ZSTD_decompress_usingDict q (src_of in_) (dict_of d) in
  (sz <= MaxAllocSize ->
   valid_ctx st (cctx st) = true ->
   ZSTD_isError rc.1 = true ->
   zstd.compress st (Some in_) d lv
   = (if len rc.2 >? Z.max 0 (sz - VARHDRSZ) then Fault
      else Raise ERROR ("ZSTD_compress_usingDict failed: "
                        +:+ ZSTD_getErrorName rc.1),
      [Ev_compressBound n; Ev_palloc sz;
       Ev_compress_usingDict bound n (dict_len_of d) (level_of lv)]))
  /\
  (q <> ZSTD_CONTENTSIZE_UNKNOWN -> q <> ZSTD_CONTENTSIZE_ERROR ->
   szd <= MaxAllocSize ->
   valid_ctx st (dctx st) = true ->
   ZSTD_isError rd.1 = true ->
   zstd.decompress st (Some in_) d
   = (if len rd.2 >? Z.max 0 (szd - VARHDRSZ) then Fault
      else Raise ERROR ("ZSTD_decompress_usingDict failed: "
                        +:+ ZSTD_getErrorName rd.1),
      [Ev_getFrameContentSize n; Ev_palloc szd;
       Ev_decompress_usingDict q n (dict_len_of d)]))
  /\
  (q = ZSTD_CONTENTSIZE_ERROR ->
   zstd.decompress st (Some in_) d
   = (Raise ERROR "ZSTD_getFrameContentSize failed",
      [Ev_getFrameContentSize n]) /\
   zstd.length (Some in_)
   = (Raise ERROR "ZSTD_getFrameContentSize failed",
      [Ev_getFrameContentSize n]))
  /\
  (forall c t, zstd.compress st (Some in_) d lv = (Ret c, t) ->
               ZSTD_isError rc.1 = false)
  /\
  (forall b t, zstd.decompress st (Some in_) d = (Ret b, t) ->
               q <> ZSTD_CONTENTSIZE_ERROR /\ ZSTD_isError rd.1 = false)
  /\
  (forall x t, zstd.length (Some in_) = (Ret x, t) ->
               q <> ZSTD_CONTENTSIZE_ERROR).
Proof.
  cbv zeta. repeat apply conj.
  - intros Hsz Hctx Herr. rewrite compress_unfold. cbv zeta.
    rewrite Hctx, Herr, (le_gtb _ _ Hsz). cbn [negb].
    destruct (_ >? _); reflexivity.
  - intros Hu He Hsz Hctx Herr. rewrite decompress_unfold. cbv zeta.
    apply Z.eqb_neq in Hu, He.
    rewrite Hu, He, Hctx, Herr, (le_gtb _ _ Hsz). cbn [negb].
    destruct (_ >? _); reflexivity.
  - intros Hq. rewrite decompress_unfold, length_unfold. cbv zeta.
    rewrite Hq. split; reflexivity.
  - intros c t. rewrite compress_unfold. cbv zeta.
    run_cases; intros ?; (discriminate || reflexivity).
  - intros b t. rewrite decompress_unfold. cbv zeta.
    destruct (Z.eqb_spec (ZSTD_getFrameContentSize (src_of in_))
                ZSTD_CONTENTSIZE_ERROR).
    + run_cases; intros ?; discriminate.
    + run_cases; intros ?; try discriminate. now split.
  - intros x t. rewrite length_unfold. cbv zeta.
    destruct (Z.eqb_spec (ZSTD_getFrameContentSize (src_of in_))
                ZSTD_CONTENTSIZE_ERROR).
    + run_cases; intros ?; discriminate.
    + intros _. assumption.
Qed.

Lemma codec_errors_surface_witness :
  zstd.compress ready (Some aaa) None (Some 100)
  = (Raise ERROR "ZSTD_compress_usingDict failed: Parameter is out of bound",
     [Ev_compressBound 3; Ev_palloc 71; Ev_compress_usingDict 67 3 0 100])
  /\
  zstd.decompress ready (Some corrupt) None
  = (Raise ERROR "ZSTD_decompress_usingDict failed: Data corruption detected",
     [Ev_getFrameContentSize 11; Ev_palloc 7; Ev_decompress_usingDict 3 11 0])
  /\
  zstd.decompress ready (Some crafted_bare) None
  = (Raise ERROR "ZSTD_decompress_usingDict failed: Data corruption detected",
     [Ev_getFrameContentSize 9; Ev_palloc 0;
      Ev_decompress_usingDict (2 ^ 64 - 4) 9 0])
  /\
  zstd.decompress ready (Some crafted) None
  = (Fault,
     [Ev_getFrameContentSize 10; Ev_palloc 0;
      Ev_decompress_usingDict (2 ^ 64 - 4) 10 0])
  /\
  (zstd.decompress ready (Some garbage) None
   = (Raise ERROR "ZSTD_getFrameContentSize failed",
      [Ev_getFrameContentSize 4]) /\
   zstd.length (Some garbage)
   = (Raise ERROR "ZSTD_getFrameContentSize failed",
      [Ev_getFrameContentSize 4])).
Proof.
  assert (Hsz : size_t (ZSTD_compressBound (src_len aaa) + VARHDRSZ)
                <= MaxAllocSize) by (vm_compute; discriminate).
  assert (Hd : forall in_,
             ZSTD_getFrameContentSize (src_of in_) < ZSTD_CONTENTSIZE_ERROR ->
             ZSTD_getFrameContentSize (src_of in_)
             <> ZSTD_CONTENTSIZE_UNKNOWN)
    by (intros in_; unfold ZSTD_CONTENTSIZE_UNKNOWN, ZSTD_CONTENTSIZE_ERROR;
        lia).
  assert (He : forall in_,
             ZSTD_getFrameContentSize (src_of in_) < ZSTD_CONTENTSIZE_ERROR ->
             ZSTD_getFrameContentSize (src_of in_) <> ZSTD_CONTENTSIZE_ERROR)
    by (intros in_; lia).
  assert (H1 : size_t (ZSTD_getFrameContentSize (src_of corrupt) + VARHDRSZ)
               <= MaxAllocSize) by (vm_compute; discriminate).
  assert (H2 : size_t (ZSTD_getFrameContentSize (src_of crafted_bare)
                       + VARHDRSZ) <= MaxAllocSize)
    by (vm_compute; discriminate).
  assert (H3 : size_t (ZSTD_getFrameContentSize (src_of crafted) + VARHDRSZ)
               <= MaxAllocSize) by (vm_compute; discriminate).
  split; [|split; [|split; [|split]]].
  - exact (proj1 (codec_errors_surface ready aaa None (Some 100))
             Hsz eq_refl eq_refl).
  - exact (proj1 (proj2 (codec_errors_surface ready corrupt None None))
             (Hd corrupt eq_refl) (He corrupt eq_refl) H1 eq_refl eq_refl).
  - exact (proj1 (proj2 (codec_errors_surface ready crafted_bare None None))
             (Hd crafted_bare eq_refl) (He crafted_bare eq_refl) H2
             eq_refl eq_refl).
  - exact (proj1 (proj2 (codec_errors_surface ready crafted None None))
             (Hd crafted eq_refl) (He crafted eq_refl) H3 eq_refl eq_refl).
  - exact (proj1 (proj2 (proj2 (codec_errors_surface ready garbage None None)))
             eq_refl).
Defined.

(** ** The overflow guard *)

(** [length] refuses every declared size above [PG_INT32_MAX] (line 143). *)
Lemma length_overflow_guard `{Codec} (in_ : bytea) :
  let q := ZSTD_getFrameContentSize (src_of in_) in
  PG_INT32_MAX < q ->
  q <> ZSTD_CONTENTSIZE_UNKNOWN -> q <> ZSTD_CONTENTSIZE_ERROR ->
  zstd.length (Some in_)
  = (Raise ERROR
       "ZSTD_getDecompressedSize returned value greater than PG_INT32_MAX",
     [Ev_getFrameContentSize (src_len in_)]).
Proof.
  cbv zeta. intros Hq Hu He. rewrite length_unfold. cbv zeta.
  apply Z.eqb_neq in Hu, He. rewrite Hu, He.
  destruct (Z.gtb_spec (ZSTD_getFrameContentSize (src_of in_)) PG_INT32_MAX);
    [reflexivity | lia].
Qed.

(** [decompress] has no test of its own: a declared size above
    [PG_INT32_MAX] is refused by the allocator, as long as adding the
    header to it does not wrap. *)
Lemma decompress_refused_by_palloc `{Codec} (st : pg_state) (in_ : bytea)
    (d : option bytea) :
  let q := ZSTD_getFrameContentSize (src_of in_) in
  PG_INT32_MAX < q -> q + VARHDRSZ < 2 ^ 64 ->
  zstd.decompress st (Some in_) d
  = (Raise ERROR "invalid memory alloc request size",
     [Ev_getFrameContentSize (src_len in_)]).
Proof.
  cbv zeta. intros Hq Hw. rewrite decompress_unfold. cbv zeta.
  replace (_ =? ZSTD_CONTENTSIZE_UNKNOWN) with false
    by (symmetry; apply Z.eqb_neq;
        unfold ZSTD_CONTENTSIZE_UNKNOWN, VARHDRSZ in *; lia).
  replace (_ =? ZSTD_CONTENTSIZE_ERROR) with false
    by (symmetry; apply Z.eqb_neq;
        unfold ZSTD_CONTENTSIZE_ERROR, VARHDRSZ in *; lia).
  rewrite size_t_small by (unfold PG_INT32_MAX, VARHDRSZ in *; lia).
  destruct (Z.gtb_spec (ZSTD_getFrameContentSize (src_of in_) + VARHDRSZ)
              MaxAllocSize) as [_|Hle]; [reflexivity|].
  unfold PG_INT32_MAX, MaxAllocSize, VARHDRSZ in *. lia.
Qed.

(** C2.  Where the claim fails: a declared size [q] within [VARHDRSZ] of
    [2^64] (and below the two sentinels).  [length] refuses it.  In
    [decompress] the request [q + VARHDRSZ] wraps to 0 or 1 byte, which
    [palloc] grants, and the codec is called with capacity [q] on that
    chunk.  Unless the codec reports an error without having stored a
    byte, the run writes past the chunk (the codec's bytes, or the
    header). *)
Theorem decompress_size_wraps `{Codec} (st : pg_state) (in_ : bytea)
    (d : option bytea) :
  let n := src_len in_ in
  let q := ZSTD_getFrameContentSize (src_of in_) in
  let rd := ZSTD_decompress_usingDict q (src_of in_) (dict_of d) in
  2 ^ 64 - VARHDRSZ <= q < ZSTD_CONTENTSIZE_ERROR ->
  valid_ctx st (dctx st) = true ->
  zstd.length (Some in_)
  = (Raise ERROR
       "ZSTD_getDecompressedSize returned value greater than PG_INT32_MAX",
     [Ev_getFrameContentSize n]) /\
  zstd.decompress st (Some in_) d
  = (if (len rd.2 =? 0) && ZSTD_isError rd.1
     then Raise ERROR ("ZSTD_decompress_usingDict failed: "
                       +:+ ZSTD_getErrorName rd.1)
     else Fault,
     [Ev_getFrameContentSize n; Ev_palloc (q + VARHDRSZ - 2 ^ 64);
      Ev_decompress_usingDict q n (dict_len_of d)]).
Proof.
  cbv zeta. intros Hq Hctx. split.
  - apply length_overflow_guard;
      unfold PG_INT32_MAX, ZSTD_CONTENTSIZE_UNKNOWN, ZSTD_CONTENTSIZE_ERROR,
        VARHDRSZ in *; lia.
  - rewrite decompress_unfold. cbv zeta. rewrite Hctx. cbn [negb].
    set (q := ZSTD_getFrameContentSize (src_of in_)) in *.
    replace (q =? ZSTD_CONTENTSIZE_UNKNOWN) with false
      by (symmetry; apply Z.eqb_neq;
          unfold ZSTD_CONTENTSIZE_UNKNOWN, ZSTD_CONTENTSIZE_ERROR in *; lia).
    replace (q =? ZSTD_CONTENTSIZE_ERROR) with false
      by (symmetry; apply Z.eqb_neq; lia).
    assert (Hsz : size_t (q + VARHDRSZ) = q + VARHDRSZ - 2 ^ 64).
    { unfold size_t, SIZE_BITS.
      unfold ZSTD_CONTENTSIZE_ERROR, VARHDRSZ in *.
      symmetry. apply (Z.mod_unique _ _ 1); lia. }
    rewrite Hsz.
    unfold ZSTD_CONTENTSIZE_ERROR, VARHDRSZ, MaxAllocSize in *.
    rewrite le_gtb by lia.
    destruct (ZSTD_decompress_usingDict _ _ _) as [r w]. cbn [fst snd].
    replace (Z.max 0 (q + 4 - 2 ^ 64 - 4)) with 0 by lia.
    destruct (Z.gtb_spec (len w) 0), (Z.eqb_spec (len w) 0); try lia;
      cbn [andb]; [reflexivity|].
    destruct (ZSTD_isError r); [reflexivity|].
    destruct (Z.ltb_spec (q + 4 - 2 ^ 64) 4); [reflexivity | lia].
Qed.

Lemma decompress_size_wraps_witness :
  zstd.length (Some crafted)
  = (Raise ERROR
       "ZSTD_getDecompressedSize returned value greater than PG_INT32_MAX",
     [Ev_getFrameContentSize 10]) /\
  zstd.decompress ready (Some crafted) None
  = (Fault,
     [Ev_getFrameContentSize 10; Ev_palloc 0;
      Ev_decompress_usingDict (2 ^ 64 - 4) 10 0]).
Proof.
  assert (Hq : 2 ^ 64 - VARHDRSZ <= ZSTD_getFrameContentSize (src_of crafted)
               < ZSTD_CONTENTSIZE_ERROR)
    by (vm_compute; split; [discriminate | reflexivity]).
  exact (decompress_size_wraps ready crafted None Hq eq_refl).
Defined.

(** ** Context lifecycle *)

(** A successful [_PG_init] leaves two distinct live handles in the statics. *)
Lemma init_ready ok_c ok_d st0 st1 :
  zstd._PG_init ok_c ok_d st0 = (Ret tt, st1) ->
  exists c d, cctx st1 = Some c /\ dctx st1 = Some d /\ c <> d /\
              live st1 = {[ d ]} ∪ ({[ c ]} ∪ live st0) /\
              valid_ctx st1 (cctx st1) = true /\
              valid_ctx st1 (dctx st1) = true.
Proof.
  unfold zstd._PG_init, ZSTD_create.
  destruct ok_c; cbn [cctx dctx live]; [|intros [=]].
  destruct (decide _) as [Hnull|_]; [discriminate Hnull|].
  destruct ok_d; cbn [cctx dctx live]; [|intros [=]].
  destruct (decide _) as [Hnull|_]; [discriminate Hnull|].
  intros [= <-]. cbn [cctx dctx live].
  pose proof (is_fresh ({[fresh (live st0)]} ∪ live st0)) as Hd.
  eexists _, _. repeat split.
  - intros Heq. rewrite <- Heq in Hd. set_solver.
  - apply bool_decide_eq_true. set_solver.
  - apply bool_decide_eq_true. set_solver.
Qed.

(** [_PG_fini] before any [_PG_init]: both statics are null, nothing is
    freed. *)
Lemma fini_not_initialised : zstd._PG_fini loaded = (Ret tt, loaded).
Proof. reflexivity. Qed.

(** [_PG_fini] after an [_PG_init] that failed on the second handle frees
    the first and skips the second. *)
Lemma fini_after_partial_init st0 :
  (zstd._PG_init true false st0).1 = Raise FATAL "ZSTD_createDCtx failed" /\
  (zstd._PG_fini (zstd._PG_init true false st0).2).1 = Ret tt.
Proof.
  assert (Hinit : zstd._PG_init true false st0
                  = (Raise FATAL "ZSTD_createDCtx failed",
                     {| cctx := Some (fresh (live st0)); dctx := NULL;
                        live := {[ fresh (live st0) ]} ∪ live st0 |})).
  { unfold zstd._PG_init, ZSTD_create. cbn [cctx dctx live].
    destruct (decide (Some (fresh (live st0)) = NULL)) as [Hnull|_]; [discriminate Hnull|].
    destruct (decide (NULL = NULL)) as [_|Hn]; [reflexivity | now destruct Hn]. }
  rewrite Hinit. split; [reflexivity|]. cbn [snd].
  unfold zstd._PG_fini, ZSTD_free. cbn [cctx dctx live].
  destruct (decide (Some (fresh (live st0)) = NULL)) as [Hnull|_]; [discriminate Hnull|].
  rewrite bool_decide_eq_true_2 by set_solver. cbn [cctx dctx live].
  destruct (decide (NULL = NULL)) as [_|Hn]; [reflexivity | now destruct Hn].
Qed.

(** C3.  Where the claim fails: [_PG_fini] called twice after a successful
    [_PG_init].  The first call frees both handles and leaves the statics
    pointing at them; the second call finds [cctx] not null and frees it
    again. *)
Theorem fini_twice_double_free (ok_c ok_d : bool) (st0 st1 : pg_state) :
  zstd._PG_init ok_c ok_d st0 = (Ret tt, st1) ->
  (zstd._PG_fini st1).1 = Ret tt /\
  cctx (zstd._PG_fini st1).2 = cctx st1 /\
  valid_ctx (zstd._PG_fini st1).2 (cctx st1) = false /\
  (zstd._PG_fini (zstd._PG_fini st1).2).1 = Fault.
Proof.
  intros Hinit.
  destruct (init_ready _ _ _ _ Hinit) as (c & d & Hc & Hd & Hne & Hl & _).
  destruct st1 as [pc pd h]. cbn [cctx dctx live] in *. subst pc pd h.
  assert (H1 : zstd._PG_fini
                 {| cctx := Some c; dctx := Some d;
                    live := {[ d ]} ∪ ({[ c ]} ∪ live st0) |}
               = (Ret tt, {| cctx := Some c; dctx := Some d;
                             live := (({[ d ]} ∪ ({[ c ]} ∪ live st0))
                                      ∖ {[ c ]}) ∖ {[ d ]} |})).
  { unfold zstd._PG_fini, ZSTD_free. cbn [cctx dctx live].
    destruct (decide (Some c = NULL)) as [Hnull|_]; [discriminate Hnull|].
    rewrite bool_decide_eq_true_2 by set_solver.
    cbn [cctx dctx live].
    destruct (decide (Some d = NULL)) as [Hnull|_]; [discriminate Hnull|].
    rewrite bool_decide_eq_true_2 by set_solver. reflexivity. }
  assert (Hgone : c ∉ (({[ d ]} ∪ ({[ c ]} ∪ live st0)) ∖ {[ c ]}) ∖ {[ d ]}).
  { intros Hin. apply elem_of_difference in Hin as [Hin _].
    apply elem_of_difference in Hin as [_ Hin].
    apply Hin. now apply elem_of_singleton. }
  rewrite H1. cbn [fst snd cctx]. repeat split.
  - unfold valid_ctx. cbn [live]. apply bool_decide_eq_false, Hgone.
  - unfold zstd._PG_fini, ZSTD_free. cbn [cctx dctx live].
    destruct (decide (Some c = NULL)) as [Hnull|_]; [discriminate Hnull|].
    rewrite bool_decide_eq_false_2 by exact Hgone. reflexivity.
Qed.

Lemma fini_twice_double_free_witness :
  (zstd._PG_fini ready).1 = Ret tt /\
  cctx (zstd._PG_fini ready).2 = cctx ready /\
  valid_ctx (zstd._PG_fini ready).2 (cctx ready) = false /\
  (zstd._PG_fini (zstd._PG_fini ready).2).1 = Fault.
Proof. exact (fini_twice_double_free true true loaded ready eq_refl). Defined.

(** ** Further properties of the lifecycle *)

(** The state a successful [_PG_init] leaves. *)
Lemma init_state ok_c ok_d st0 st1 :
  zstd._PG_init ok_c ok_d st0 = (Ret tt, st1) ->
  ok_c = true /\ ok_d = true /\
  st1 = {| cctx := Some (fresh (live st0));
           dctx := Some (fresh ({[ fresh (live st0) ]} ∪ live st0));
           live := {[ fresh ({[ fresh (live st0) ]} ∪ live st0) ]}
                   ∪ ({[ fresh (live st0) ]} ∪ live st0) |}.
Proof.
  unfold zstd._PG_init, ZSTD_create.
  destruct ok_c; cbn [cctx dctx live].
  - destruct (decide (Some (fresh (live st0)) = NULL)) as [Hn|_];
      [discriminate Hn|].
    destruct ok_d; cbn [cctx dctx live].
    + destruct (decide (Some (fresh ({[fresh (live st0)]} ∪ live st0)) = NULL))
        as [Hn|_]; [discriminate Hn|].
      intros [= <-]. repeat split.
    + destruct (decide (NULL = NULL)) as [_|Hn];
        [intros Heq; discriminate Heq | now destruct Hn].
  - destruct (decide (NULL = NULL)) as [_|Hn];
        [intros Heq; discriminate Heq | now destruct Hn].
Qed.

(** [_PG_fini] in that state. *)
Lemma fini_after_init ok_c ok_d st0 st1 :
  zstd._PG_init ok_c ok_d st0 = (Ret tt, st1) ->
  zstd._PG_fini st1
  = (Ret tt, {| cctx := cctx st1; dctx := dctx st1; live := live st0 |}).
Proof.
  intros Hinit. destruct (init_state _ _ _ _ Hinit) as (_ & _ & ->).
  pose proof (is_fresh (live st0)) as Hc.
  pose proof (is_fresh ({[fresh (live st0)]} ∪ live st0)) as Hd.
  unfold zstd._PG_fini, ZSTD_free. cbn [cctx dctx live].
  destruct (decide (Some (fresh (live st0)) = NULL)) as [Hn|_];
    [discriminate Hn|].
  rewrite bool_decide_eq_true_2 by set_solver. cbn [cctx dctx live].
  destruct (decide (Some (fresh ({[fresh (live st0)]} ∪ live st0)) = NULL))
    as [Hn|_]; [discriminate Hn|].
  rewrite bool_decide_eq_true_2 by set_solver.
  do 2 f_equal. apply set_eq. intros x.
  rewrite !elem_of_difference, !elem_of_union, !elem_of_singleton.
  rewrite not_elem_of_union, elem_of_singleton in Hd.
  split; [tauto|]. intros Hx.
  repeat split; [tauto | intros -> .. ]; tauto.
Qed.

(** X1.  [_PG_init] returns exactly when the codec creates both contexts.  It
    then leaves two distinct live handles in the statics and every handle
    that was live before is still live.  When the first context cannot be
    created the second is not requested: [dctx] and the live handles are
    as before. *)
Theorem init_outcome (ok_c ok_d : bool) (st0 : pg_state) :
  ((zstd._PG_init ok_c ok_d st0).1 = Ret tt <-> ok_c = true /\ ok_d = true)
  /\
  (forall st1, zstd._PG_init ok_c ok_d st0 = (Ret tt, st1) ->
     valid_ctx st1 (cctx st1) = true /\ valid_ctx st1 (dctx st1) = true /\
     cctx st1 <> dctx st1 /\ live st0 ⊆ live st1 /\
     valid_ctx st0 (cctx st1) = false /\ valid_ctx st0 (dctx st1) = false)
  /\
  zstd._PG_init false ok_d st0
  = (Raise FATAL "ZSTD_createCCtx failed",
     {| cctx := NULL; dctx := dctx st0; live := live st0 |})
  /\
  (zstd._PG_init true false st0).1 = Raise FATAL "ZSTD_createDCtx failed".
Proof.
  split; [|split; [|split]].
  - split.
    + destruct (zstd._PG_init ok_c ok_d st0) as [o st1] eqn:E. cbn [fst].
      intros ->. now destruct (init_state _ _ _ _ E) as (? & ? & _).
    + intros [-> ->]. unfold zstd._PG_init, ZSTD_create. cbn [cctx dctx live].
      destruct (decide (Some (fresh (live st0)) = NULL)) as [Hn|_];
        [discriminate Hn|].
      destruct (decide (Some (fresh ({[fresh (live st0)]} ∪ live st0)) = NULL))
        as [Hn|_]; [discriminate Hn | reflexivity].
  - intros st1 Hinit. destruct (init_state _ _ _ _ Hinit) as (_ & _ & ->).
    pose proof (is_fresh (live st0)) as Hc.
    pose proof (is_fresh ({[fresh (live st0)]} ∪ live st0)) as Hd.
    unfold valid_ctx. cbn [cctx dctx live].
    rewrite !bool_decide_eq_true, !bool_decide_eq_false.
    repeat split; set_solver.
  - unfold zstd._PG_init, ZSTD_create. cbn [cctx dctx live].
    destruct (decide (NULL = NULL)) as [_|Hn]; [reflexivity | now destruct Hn].
  - unfold zstd._PG_init, ZSTD_create. cbn [cctx dctx live].
    destruct (decide (Some (fresh (live st0)) = NULL)) as [Hn|_];
      [discriminate Hn|].
    destruct (decide (NULL = NULL)) as [_|Hn]; [reflexivity | now destruct Hn].
Qed.

(** X2.  A successful [_PG_init] followed by [_PG_fini] leaks nothing: the call
    returns, the handles [_PG_init] created are released, and the live
    handles are those of before. *)
Theorem init_fini_restores (ok_c ok_d : bool) (st0 st1 : pg_state) :
  zstd._PG_init ok_c ok_d st0 = (Ret tt, st1) ->
  (zstd._PG_fini st1).1 = Ret tt /\
  live (zstd._PG_fini st1).2 = live st0 /\
  valid_ctx (zstd._PG_fini st1).2 (cctx st1) = false /\
  valid_ctx (zstd._PG_fini st1).2 (dctx st1) = false.
Proof.
  intros Hinit. rewrite (fini_after_init _ _ _ _ Hinit). cbn [fst snd live].
  destruct (init_state _ _ _ _ Hinit) as (_ & _ & ->).
  pose proof (is_fresh (live st0)) as Hc.
  pose proof (is_fresh ({[fresh (live st0)]} ∪ live st0)) as Hd.
  unfold valid_ctx. cbn [cctx dctx live].
  rewrite !bool_decide_eq_false. repeat split; set_solver.
Qed.

Lemma init_fini_restores_witness :
  (zstd._PG_fini ready).1 = Ret tt /\
  live (zstd._PG_fini ready).2 = live loaded /\
  valid_ctx (zstd._PG_fini ready).2 (cctx ready) = false /\
  valid_ctx (zstd._PG_fini ready).2 (dctx ready) = false.
Proof. exact (init_fini_restores true true loaded ready eq_refl). Defined.

(** ** Further properties of the operations *)

(** X4.  No operation ends the process: whatever the arguments and the codec,
    [compress], [decompress] and [length] never report at level FATAL, and
    [length], which touches neither a context nor a buffer, never has
    undefined behaviour. *)
Theorem operations_never_fatal `{Codec} (st : pg_state) (a d : option bytea)
    (lv : option Z) (msg : string) :
  (zstd.compress st a d lv).1 <> Raise FATAL msg /\
  (zstd.decompress st a d).1 <> Raise FATAL msg /\
  (zstd.length a).1 <> Raise FATAL msg /\
  (zstd.length a).1 <> Fault.
Proof.
  destruct a as [in_|]; [|repeat split; intros Heq; discriminate Heq].
  rewrite compress_unfold, decompress_unfold, length_unfold. cbv zeta.
  repeat split; run_cases; intros Heq; discriminate Heq.
Qed.

(** X5.  The exact range of [length].  For a content size [q] that the codec
    reports as an unsigned value other than the two sentinels, [length]
    returns [q] itself when [q <= PG_INT32_MAX] and returns nothing
    otherwise: a returned length is never negative and never a truncation
    of the declared size. *)
Theorem length_threshold `{Codec} (in_ : bytea) (x : Z) (t : list event) :
  let q := ZSTD_getFrameContentSize (src_of in_) in
  0 <= q ->
  q <> ZSTD_CONTENTSIZE_UNKNOWN -> q <> ZSTD_CONTENTSIZE_ERROR ->
  (zstd.length (Some in_) = (Ret x, t) <->
   x = q /\ q <= PG_INT32_MAX /\ t = [Ev_getFrameContentSize (src_len in_)]).
Proof.
  cbv zeta. intros Hq Hu He. rewrite length_unfold. cbv zeta.
  apply Z.eqb_neq in Hu, He. rewrite Hu, He.
  destruct (Z.gtb_spec (ZSTD_getFrameContentSize (src_of in_)) PG_INT32_MAX)
    as [Hgt|Hle].
  - split; [intros Heq; discriminate Heq | intros (_ & Hle & _); lia].
  - rewrite int32_small by (unfold PG_INT32_MAX in *; lia).
    split.
    + intros [= <- <-]. repeat split; assumption.
    + intros (-> & _ & ->). reflexivity.
Qed.

Lemma length_threshold_witness :
  zstd.length (Some (bytea_of (stored.frame_of [x41; x41; x41])))
  = (Ret 3, [Ev_getFrameContentSize 12])
  <-> 3 = 3 /\ 3 <= PG_INT32_MAX /\
      [Ev_getFrameContentSize 12] = [Ev_getFrameContentSize 12].
Proof.
  assert (H0 : 0 <= ZSTD_getFrameContentSize
                      (src_of (bytea_of (stored.frame_of [x41; x41; x41]))))
    by (vm_compute; discriminate).
  assert (Hu : ZSTD_getFrameContentSize
                 (src_of (bytea_of (stored.frame_of [x41; x41; x41])))
               <> ZSTD_CONTENTSIZE_UNKNOWN) by (vm_compute; discriminate).
  assert (He : ZSTD_getFrameContentSize
                 (src_of (bytea_of (stored.frame_of [x41; x41; x41])))
               <> ZSTD_CONTENTSIZE_ERROR) by (vm_compute; discriminate).
  exact (length_threshold (bytea_of (stored.frame_of [x41; x41; x41])) 3
           [Ev_getFrameContentSize 12] H0 Hu He).
Defined.

(** What a value returned by [decompress] says about the run. *)
Lemma decompress_ret_inv `{Codec} st in_ d c t :
  let n := src_len in_ in
  let q := ZSTD_getFrameContentSize (src_of in_) in
  let rd := ZSTD_decompress_usingDict q (src_of in_) (dict_of d) in
  0 <= q < 2 ^ 64 ->
  zstd.decompress st (Some in_) d = (Ret c, t) ->
  q <> ZSTD_CONTENTSIZE_UNKNOWN /\ q <> ZSTD_CONTENTSIZE_ERROR /\
  q + VARHDRSZ <= MaxAllocSize /\
  len rd.2 <= q /\
  ZSTD_isError rd.1 = false /\
  c = {| chunk_size := q + VARHDRSZ;
         vl_len_ := size_t (rd.1 + VARHDRSZ) mod 2 ^ 30;
         vl_dat := rd.2 |} /\
  t = [Ev_getFrameContentSize n; Ev_palloc (q + VARHDRSZ);
       Ev_decompress_usingDict q n (dict_len_of d)].
Proof.
  cbv zeta. intros Hq. rewrite decompress_unfold. cbv zeta.
  set (q := ZSTD_getFrameContentSize (src_of in_)) in *.
  destruct (Z.eqb_spec q ZSTD_CONTENTSIZE_UNKNOWN) as [|Hu];
    [intros Heq; discriminate Heq|].
  destruct (Z.eqb_spec q ZSTD_CONTENTSIZE_ERROR) as [|He];
    [intros Heq; discriminate Heq|].
  destruct (Z.gtb_spec (size_t (q + VARHDRSZ)) MaxAllocSize) as [|Hsz];
    [intros Heq; discriminate Heq|].
  destruct (valid_ctx st (dctx st)); [|intros Heq; discriminate Heq].
  cbn [negb].
  destruct (Z.gtb_spec (len (ZSTD_decompress_usingDict q (src_of in_)
                                (dict_of d)).2)
              (Z.max 0 (size_t (q + VARHDRSZ) - VARHDRSZ))) as [|Hw];
    [intros Heq; discriminate Heq|].
  destruct (ZSTD_isError _); [intros Heq; discriminate Heq|].
  destruct (Z.ltb_spec (size_t (q + VARHDRSZ)) VARHDRSZ) as [|Hhdr];
    [intros Heq; discriminate Heq|].
  assert (Hfit : size_t (q + VARHDRSZ) = q + VARHDRSZ).
  { destruct (Z.lt_ge_cases (q + VARHDRSZ) (2 ^ 64)) as [Hlt|Hge].
    - apply size_t_small. unfold VARHDRSZ in *. lia.
    - exfalso.
      assert (Hwrap : size_t (q + VARHDRSZ) = q + VARHDRSZ - 2 ^ 64).
      { unfold size_t, SIZE_BITS. unfold VARHDRSZ in *.
        symmetry. apply (Z.mod_unique _ _ 1); lia. }
      rewrite Hwrap in Hhdr. lia. }
  rewrite Hfit in *.
  intros [= <- <-]. unfold VARHDRSZ in *. repeat split; try assumption; lia.
Qed.

(** X6.  What [decompress] returns is bounded by what the frame declares.  When
    [decompress] returns a value (the declared size [q] being an unsigned
    64-bit value), [q] plus the header is within the allocator's limit, the
    chunk has exactly that size and is not shrunk afterwards, the value
    holds the bytes the codec stored and they are at most [q], and
    [length] on the same input returns [q]. *)
Theorem decompress_result_bounds `{Codec} (st : pg_state) (in_ : bytea)
    (d : option bytea) (c : bytea) (t : list event) :
  let n := src_len in_ in
  let q := ZSTD_getFrameContentSize (src_of in_) in
  let rd := ZSTD_decompress_usingDict q (src_of in_) (dict_of d) in
  0 <= q < 2 ^ 64 ->
  zstd.decompress st (Some in_) d = (Ret c, t) ->
  q + VARHDRSZ <= MaxAllocSize /\
  chunk_size c = q + VARHDRSZ /\
  VARDATA c = rd.2 /\
  len (VARDATA c) <= q /\
  t = [Ev_getFrameContentSize n; Ev_palloc (q + VARHDRSZ);
       Ev_decompress_usingDict q n (dict_len_of d)] /\
  zstd.length (Some in_) = (Ret q, [Ev_getFrameContentSize n]).
Proof.
  cbv zeta. intros Hq Hrun.
  destruct (decompress_ret_inv _ _ _ _ _ Hq Hrun)
    as (Hu & He & Hsz & Hw & _ & -> & ->).
  cbn [chunk_size VARDATA vl_dat]. repeat split; try assumption.
  rewrite length_unfold. cbv zeta.
  apply Z.eqb_neq in Hu, He. rewrite Hu, He.
  rewrite le_gtb, int32_small; [reflexivity | |];
    unfold PG_INT32_MAX, MaxAllocSize, VARHDRSZ in *; lia.
Qed.

Lemma decompress_result_bounds_witness :
  let c := bytea_of [x41; x41; x41] in
  3 + VARHDRSZ <= MaxAllocSize /\
  chunk_size c = 3 + VARHDRSZ /\
  VARDATA c = [x41; x41; x41] /\
  len (VARDATA c) <= 3 /\
  [Ev_getFrameContentSize 12; Ev_palloc 7; Ev_decompress_usingDict 3 12 0]
  = [Ev_getFrameContentSize 12; Ev_palloc (3 + VARHDRSZ);
     Ev_decompress_usingDict 3 12 0] /\
  zstd.length (Some (bytea_of (stored.frame_of [x41; x41; x41])))
  = (Ret 3, [Ev_getFrameContentSize 12]).
Proof.
  assert (Hq : 0 <= ZSTD_getFrameContentSize
                      (src_of (bytea_of (stored.frame_of [x41; x41; x41])))
               < 2 ^ 64) by (vm_compute; split; [discriminate | reflexivity]).
  exact (decompress_result_bounds ready
           (bytea_of (stored.frame_of [x41; x41; x41])) None
           (bytea_of [x41; x41; x41])
           [Ev_getFrameContentSize 12; Ev_palloc 7;
            Ev_decompress_usingDict 3 12 0]
           Hq eq_refl).
Defined.

(** X7.  The value [decompress] returns is well formed as soon as the codec's
    count is the number of bytes it stored: its length word counts the
    header and exactly those bytes, which are the bytes the value denotes,
    and the value fits the chunk that holds it. *)
Theorem decompress_result_wf `{Codec} (st : pg_state) (in_ : bytea)
    (d : option bytea) (c : bytea) (t : list event) :
  let q := ZSTD_getFrameContentSize (src_of in_) in
  let rd := ZSTD_decompress_usingDict q (src_of in_) (dict_of d) in
  0 <= q < 2 ^ 64 ->
  rd.1 = len rd.2 ->
  zstd.decompress st (Some in_) d = (Ret c, t) ->
  wf_bytea c /\ bytes_of c = rd.2 /\ VARSIZE c <= chunk_size c.
Proof.
  cbv zeta. intros Hq Hcount Hrun.
  destruct (decompress_ret_inv _ _ _ _ _ Hq Hrun)
    as (_ & _ & Hsz & Hw & _ & -> & _).
  rewrite Hcount.
  set (w := (ZSTD_decompress_usingDict _ _ _).2) in *.
  assert (Hlen : size_t (len w + VARHDRSZ) mod 2 ^ 30 = len w + VARHDRSZ).
  { rewrite size_t_small by (unfold MaxAllocSize, VARHDRSZ in *; lia).
    apply Z.mod_small. unfold MaxAllocSize, VARHDRSZ in *. lia. }
  unfold wf_bytea, bytes_of. cbn [VARSIZE VARDATA vl_len_ vl_dat chunk_size].
  rewrite Hlen.
  replace (len w + VARHDRSZ - VARHDRSZ) with (len w) by lia.
  rewrite firstn_len. repeat split; lia.
Qed.

Lemma decompress_result_wf_witness :
  wf_bytea (bytea_of [x41; x41; x41]) /\
  bytes_of (bytea_of [x41; x41; x41]) = [x41; x41; x41] /\
  VARSIZE (bytea_of [x41; x41; x41]) <= chunk_size (bytea_of [x41; x41; x41]).
Proof.
  assert (Hq : 0 <= ZSTD_getFrameContentSize
                      (src_of (bytea_of (stored.frame_of [x41; x41; x41])))
               < 2 ^ 64) by (vm_compute; split; [discriminate | reflexivity]).
  exact (decompress_result_wf ready
           (bytea_of (stored.frame_of [x41; x41; x41])) None
           (bytea_of [x41; x41; x41])
           [Ev_getFrameContentSize 12; Ev_palloc 7;
            Ev_decompress_usingDict 3 12 0]
           Hq eq_refl eq_refl).
Defined.

(** X8.  The value [compress] returns is well formed and can be handed back to
    the three functions: its length word counts the header and exactly the
    data bytes present, it is within the allocator's limit, its chunk has
    exactly its size, and it is no longer than the codec's worst-case bound
    for the input. *)
Theorem compress_result_wf `{CodecContract} (st : pg_state) (in_ : bytea)
    (d : option bytea) (lv : option Z) (c : bytea) (t : list event) :
  zstd.compress st (Some in_) d lv = (Ret c, t) ->
  wf_bytea c /\
  chunk_size c = VARSIZE c /\
  len (VARDATA c) <= Z.max 0 (ZSTD_compressBound (src_len in_)).
Proof.
  intros Hrun.
  destruct (compress_ret_inv _ _ _ _ _ _ Hrun) as (_ & _ & Hfit & -> & _).
  split; [now apply wf_bytea_of|]. split; [reflexivity|].
  cbn [VARDATA bytea_of vl_dat]. apply compress_within.
Qed.

Lemma compress_result_wf_witness :
  let c := bytea_of (stored.frame_of [x41; x41; x41]) in
  wf_bytea c /\ chunk_size c = VARSIZE c /\
  len (VARDATA c) <= Z.max 0 (ZSTD_compressBound (src_len aaa)).
Proof.
  exact (compress_result_wf ready aaa None None
           (bytea_of (stored.frame_of [x41; x41; x41]))
           [Ev_compressBound 3; Ev_palloc 71; Ev_compress_usingDict 67 3 0 3;
            Ev_repalloc 16]
           eq_refl).
Defined.

(** ** The allocator's limit *)

Lemma largest_wf : wf_bytea largest.
Proof.
  unfold wf_bytea, largest, VARSIZE, VARDATA. cbn [vl_len_ vl_dat].
  rewrite repeat_length, Z2Nat.id by (unfold MaxAllocSize, VARHDRSZ; lia).
  lia.
Qed.

Lemma largest_len : src_len largest = MaxAllocSize - VARHDRSZ.
Proof.
  unfold src_len, largest, VARSIZE. cbn [vl_len_].
  apply size_t_small. unfold MaxAllocSize, VARHDRSZ. lia.
Qed.

(** X9.  [compress] has an input limit below that of bytea.  When the codec's
    worst-case bound for the input, plus the header, exceeds what [palloc]
    accepts, [compress] ends with the allocator's error right after
    computing the bound: nothing is allocated and the codec is not asked
    to compress. *)
Theorem compress_refused_by_palloc `{Codec} (st : pg_state) (in_ : bytea)
    (d : option bytea) (lv : option Z) :
  MaxAllocSize < ZSTD_compressBound (src_len in_) + VARHDRSZ < 2 ^ 64 ->
  zstd.compress st (Some in_) d lv
  = (Raise ERROR "invalid memory alloc request size",
     [Ev_compressBound (src_len in_)]).
Proof.
  intros Hb. rewrite compress_unfold. cbv zeta.
  rewrite size_t_small by (unfold MaxAllocSize in *; lia).
  destruct (Z.gtb_spec (ZSTD_compressBound (src_len in_) + VARHDRSZ)
              MaxAllocSize); [reflexivity | lia].
Qed.

Lemma compress_refused_by_palloc_witness :
  wf_bytea largest /\
  zstd.compress ready (Some largest) None None
  = (Raise ERROR "invalid memory alloc request size",
     [Ev_compressBound (src_len largest)]).
Proof.
  assert (Hb : MaxAllocSize < ZSTD_compressBound (src_len largest) + VARHDRSZ
               < 2 ^ 64).
  { rewrite largest_len. vm_compute. split; reflexivity. }
  split; [exact largest_wf|].
  exact (compress_refused_by_palloc ready largest None None Hb).
Defined.

(** X10.  [length] and [decompress] draw the line at different sizes.  For a
    declared size above [MaxAllocSize - VARHDRSZ] and up to
    [PG_INT32_MAX], [length] returns the size while [decompress] of the
    same input ends with the allocator's error, before any codec call
    other than the size query. *)
Theorem length_accepts_decompress_refuses `{Codec} (st : pg_state)
    (in_ : bytea) (d : option bytea) :
  let q := ZSTD_getFrameContentSize (src_of in_) in
  MaxAllocSize - VARHDRSZ < q <= PG_INT32_MAX ->
  zstd.length (Some in_) = (Ret q, [Ev_getFrameContentSize (src_len in_)]) /\
  zstd.decompress st (Some in_) d
  = (Raise ERROR "invalid memory alloc request size",
     [Ev_getFrameContentSize (src_len in_)]).
Proof.
  cbv zeta. intros Hq.
  rewrite length_unfold, decompress_unfold. cbv zeta.
  set (q := ZSTD_getFrameContentSize (src_of in_)) in *.
  replace (q =? ZSTD_CONTENTSIZE_UNKNOWN) with false
    by (symmetry; apply Z.eqb_neq;
        unfold ZSTD_CONTENTSIZE_UNKNOWN, PG_INT32_MAX in *; lia).
  replace (q =? ZSTD_CONTENTSIZE_ERROR) with false
    by (symmetry; apply Z.eqb_neq;
        unfold ZSTD_CONTENTSIZE_ERROR, PG_INT32_MAX in *; lia).
  rewrite size_t_small
    by (unfold PG_INT32_MAX, MaxAllocSize, VARHDRSZ in *; lia).
  rewrite le_gtb by lia.
  rewrite int32_small
    by (unfold PG_INT32_MAX, MaxAllocSize, VARHDRSZ in *; lia).
  destruct (Z.gtb_spec (q + VARHDRSZ) MaxAllocSize);
    [split; reflexivity | lia].
Qed.

Lemma length_accepts_decompress_refuses_witness :
  zstd.length (Some oversized) = (Ret (2 ^ 30), [Ev_getFrameContentSize 9]) /\
  zstd.decompress ready (Some oversized) None
  = (Raise ERROR "invalid memory alloc request size",
     [Ev_getFrameContentSize 9]).
Proof.
  assert (Hq : MaxAllocSize - VARHDRSZ
               < ZSTD_getFrameContentSize (src_of oversized) <= PG_INT32_MAX)
    by (vm_compute; split; [reflexivity | discriminate]).
  exact (length_accepts_decompress_refuses ready oversized None Hq).
Defined.

(** ** Call discipline *)

(** X11.  Each operation makes its host and codec calls at most once and in a
    fixed order, however it ends.  [compress]: bound, allocation,
    compression, shrink.  [decompress]: size query, allocation,
    decompression, and no shrink.  [length]: the size query alone, so it
    never allocates and never decompresses.  An absent input makes no call
    at all. *)
Theorem call_discipline `{Codec} (st : pg_state) (a d : option bytea)
    (lv : option Z) :
  (exists bound sz sz' dl,
     (zstd.compress st a d lv).2
     `prefix_of` [Ev_compressBound (from_option src_len 0 a);
                  Ev_palloc sz;
                  Ev_compress_usingDict bound (from_option src_len 0 a) dl
                    (level_of lv);
                  Ev_repalloc sz']) /\
  (exists q sz dl,
     (zstd.decompress st a d).2
     `prefix_of` [Ev_getFrameContentSize (from_option src_len 0 a);
                  Ev_palloc sz;
                  Ev_decompress_usingDict q (from_option src_len 0 a) dl]) /\
  (zstd.length a).2
  `prefix_of` [Ev_getFrameContentSize (from_option src_len 0 a)] /\
  (a = None ->
   (zstd.compress st a d lv).2 = [] /\ (zstd.decompress st a d).2 = [] /\
   (zstd.length a).2 = []).
Proof.
  destruct a as [in_|].
  - cbn [from_option].
    rewrite compress_unfold, decompress_unfold, length_unfold. cbv zeta.
    split; [|split; [|split]].
    + exists (ZSTD_compressBound (src_len in_)),
        (size_t (ZSTD_compressBound (src_len in_) + VARHDRSZ)),
        (size_t ((ZSTD_compress_usingDict (ZSTD_compressBound (src_len in_))
                    (src_of in_) (dict_of d) (level_of lv)).1 + VARHDRSZ)),
        (dict_len_of d).
      run_cases; eexists; cbn [app]; reflexivity.
    + exists (ZSTD_getFrameContentSize (src_of in_)),
        (size_t (ZSTD_getFrameContentSize (src_of in_) + VARHDRSZ)),
        (dict_len_of d).
      run_cases; eexists; cbn [app]; reflexivity.
    + run_cases; eexists; cbn [app]; reflexivity.
    + intros Heq. discriminate Heq.
  - split; [|split; [|split]].
    + exists 0, 0, 0, 0. apply prefix_nil.
    + exists 0, 0, 0. apply prefix_nil.
    + apply prefix_nil.
    + intros _. repeat split.
Qed.

(** ** Round trip and the allocator's limit *)

